(** * Sky_bot: the game session store, the guessing game and the dispatcher

    A shallow embedding of [sky.py]: the module-level dictionary [games_db],
    the handler [guess_number_game], the free-text handler [handle_message],
    the admin handler [broadcast_command] and the other handlers that
    [main] registers, followed by the properties of the session state
    machine and of the routing of free text.

    Conventions of the embedding.
    - A Python [int] is a [Z]; a Python [str] is the list of its code
      points; [None] in a slot that may also hold a value is [option].
    - A handler is a computation in the monad [M]: it reads and mutates
      [games_db], it may raise, and it emits effects (the replies it sends
      through the transport and the calls it makes to the external
      adapters). The transport calls themselves are taken as total.
    - What the environment hands to one invocation (the update, the value
      drawn by the random generator) is an argument of the handler; the
      configuration read at import time ([ADMIN_IDS], [GEMINI_API_KEY]) and
      the external adapters are variables of the section. *)

From Stdlib Require Import ZArith NArith List String Ascii DecimalString Lia.
From Stdlib Require Import DecimalPos.
From stdpp Require Import base option list gmap.

Open Scope Z_scope.

(** ** Python strings *)

(** A [str] is a sequence of code points. *)
Abbreviation pystr := (list N).

(** Source literals are written as Rocq strings, which are byte strings in
    UTF-8; [py] decodes them into code points. [pending] counts the
    continuation bytes still expected and [acc] holds the bits read so far. *)
Fixpoint utf8_decode (pending : nat) (acc : N) (bs : list N) : pystr :=
  match bs with
  | [] => []
  | b :: bs' =>
      match pending with
      | O =>
          if (b <? 128)%N then b :: utf8_decode 0 0%N bs'
          else if (b <? 224)%N then utf8_decode 1 (N.land b 31) bs'
          else if (b <? 240)%N then utf8_decode 2 (N.land b 15) bs'
          else utf8_decode 3 (N.land b 7) bs'
      | S O => (acc * 64 + N.land b 63)%N :: utf8_decode 0 0%N bs'
      | S p => utf8_decode p (acc * 64 + N.land b 63)%N bs'
      end
  end.

Definition py (s : string) : pystr :=
  utf8_decode 0 0%N (map N_of_ascii (list_ascii_of_string s)).

(** [str(n)] for an [int]: the decimal numeral, with a minus sign when
    negative. *)
Definition py_str (n : Z) : pystr := py (NilZero.string_of_int (Z.to_int n)).

(** [sep.join(parts)]. *)
Fixpoint join (sep : pystr) (parts : list pystr) : pystr :=
  match parts with
  | [] => []
  | [p] => p
  | p :: rest => p ++ sep ++ join sep rest
  end.

(** [s.startswith(prefix)]. *)
Fixpoint startswith (s prefix : pystr) {struct prefix} : bool :=
  match prefix, s with
  | [], _ => true
  | _ :: _, [] => false
  | p :: prefix', c :: s' => (c =? p)%N && startswith s' prefix'
  end.

(** Truth value of an [int]-or-[None] slot: [None] and [0] are falsy. *)
Definition truthy_int (v : option Z) : bool :=
  match v with
  | None => false
  | Some n => negb (n =? 0)
  end.

(** Truth value of a [str]-or-[None] slot: [None] and the empty string are
    falsy. *)
Definition truthy_str (v : option pystr) : bool :=
  match v with
  | None | Some [] => false
  | Some (_ :: _) => true
  end.

(** ** [int(text)]

    The builtin, for a [str] argument and the default base ten, as CPython
    implements it: code points outside ASCII are first mapped to a space
    (Unicode white space) or to an ASCII digit (Unicode decimal digits), any
    other one makes the conversion fail; the ASCII text is then white space,
    an optional sign, digits with single underscores allowed between them,
    white space. The two Unicode tables belong to the interpreter and are
    parameters here; they are consulted for code points from 128 on only.
    The interpreter's cap on the number of digits (4300 by default) is not
    modelled: a Telegram message text holds at most 4096 characters. *)

Definition Py_ISSPACE (c : N) : bool :=
  ((9 <=? c) && (c <=? 13) || (c =? 32))%N.

Definition digit_value (c : N) : option Z :=
  if ((48 <=? c) && (c <=? 57))%N then Some (Z.of_N (c - 48)) else None.

Definition is_underscore (c : N) : bool := (c =? 95)%N.

(** The digit loop of [PyLong_FromString]: it stops at the first character
    that is neither a digit nor an underscore, and fails on two underscores
    in a row and on an underscore in last position. *)
Fixpoint scan_digits (acc : Z) (prev_underscore : bool) (s : pystr)
  : option (Z * pystr) :=
  match s with
  | [] => if prev_underscore then None else Some (acc, [])
  | c :: s' =>
      if is_underscore c then
        if prev_underscore then None else scan_digits acc true s'
      else
        match digit_value c with
        | Some d => scan_digits (10 * acc + d) false s'
        | None => if prev_underscore then None else Some (acc, s)
        end
  end.

Fixpoint skip_spaces (s : pystr) : pystr :=
  match s with
  | c :: s' => if Py_ISSPACE c then skip_spaces s' else s
  | [] => []
  end.

(** After the leading white space: sign, then at least one digit first. *)
Definition parse_signed (s : pystr) : option Z :=
  let '(sign, body) :=
    match s with
    | 43%N :: s' => (1, s')
    | 45%N :: s' => (-1, s')
    | _ => (1, s)
    end in
  match body with
  | c :: _ =>
      match digit_value c with
      | Some _ =>
          match scan_digits 0 false body with
          | Some (n, rest) =>
              match skip_spaces rest with
              | [] => Some (sign * n)
              | _ :: _ => None
              end
          | None => None
          end
      | None => None
      end
  | [] => None
  end.

Section Interpreter.

(** [Py_UNICODE_ISSPACE] and [Py_UNICODE_TODECIMAL] of the interpreter. *)
Variable Py_UNICODE_ISSPACE : N -> bool.
Variable Py_UNICODE_TODECIMAL : N -> option N.

(** [_PyUnicode_TransformDecimalAndSpaceToASCII]; [None] stands for the
    question mark the interpreter writes at a character it cannot map, at
    which the conversion always fails. *)
Fixpoint to_ascii (s : pystr) : option pystr :=
  match s with
  | [] => Some []
  | ch :: s' =>
      let out :=
        if (ch <? 128)%N then Some ch
        else if Py_UNICODE_ISSPACE ch then Some 32%N
        else
          match Py_UNICODE_TODECIMAL ch with
          | Some d => if (d <? 10)%N then Some (48 + d)%N else None
          | None => None
          end in
      match out, to_ascii s' with
      | Some c, Some r => Some (c :: r)
      | _, _ => None
      end
  end.

(** [int(text)]: [Some n] when it returns [n], [None] when it raises
    [ValueError]. *)
Definition py_int (text : pystr) : option Z :=
  match to_ascii text with
  | Some a => parse_signed (skip_spaces a)
  | None => None
  end.

End Interpreter.

(** ** [random.randint]

    [randint(a, b)] is [a + _randbelow(b - a + 1)]; [_randbelow(n)] yields
    a number below [n] from the bits of the generator, which one invocation
    receives as [rnd]. *)
Definition _randbelow (n : Z) (rnd : N) : Z := Z.of_N rnd mod n.

Definition randint (a b : Z) (rnd : N) : Z := a + _randbelow (b - a + 1) rnd.

(** ** Updates *)

Record User := { id : Z; first_name : pystr }.
Record Message := { text : pystr }.
Record CallbackQuery := { data : pystr }.

(** [update.effective_user], [update.message] and [update.callback_query]
    are [None] when the update carries none (an edited message or a button
    press has no [message]; a channel post has no user). *)
Record Update := {
  effective_user : option User;
  message : option Message;
  callback_query : option CallbackQuery
}.

Record CallbackContext := { args : list pystr }.

(** ** The store and the handler monad *)

(** One value of [games_db]: the dictionary with the keys "number" and
    "attempts". *)
Record session := { number : option Z; attempts : Z }.

(** What a handler does to the outside: replies through the transport,
    calls to the external adapters, and the removal of a downloaded file. *)
Inductive effect :=
| ReplyText (body : pystr)
| ReplyKeyboard (body : pystr) (keyboard : list (list (pystr * pystr)))
| ReplyVideo (path caption : pystr)
| QueryAnswer
| EditMessageText (body : pystr)
| OsRemove (path : pystr)
| CallChatGpt (prompt : pystr)
| CallGeminiChat (prompt : pystr)
| CallDownloadYoutube (url : pystr)
| CallSendWhatsapp (to_number body : pystr)
| CallGetWeather (city : pystr).

Inductive exn := ValueError | KeyError | TypeError | AttributeError.

Inductive outcome (A : Type) :=
| Returned (a : A)
| Raised (e : exn).
Arguments Returned {A} a.
Arguments Raised {A} e.

(** A computation takes [games_db] and gives its outcome, [games_db] as it
    leaves it, and the effects it emitted, oldest first. A raise keeps the
    mutations and the effects that came before it. *)
Definition M (A : Type) : Type :=
  gmap Z session -> outcome A * gmap Z session * list effect.

Definition ret {A} (a : A) : M A := fun db => (Returned a, db, []).

Definition bind {A B} (c : M A) (k : A -> M B) : M B := fun db =>
  match c db with
  | (Returned a, db1, out1) =>
      match k a db1 with
      | (r, db2, out2) => (r, db2, out1 ++ out2)
      end
  | (Raised e, db1, out1) => (Raised e, db1, out1)
  end.

Declare Scope handler_scope.
Delimit Scope handler_scope with handler.
Notation "x ← c ; k" := (bind c (fun x => k))
  (at level 20, c at level 100, k at level 200, only parsing) : handler_scope.
Notation "c ;; k" := (bind c (fun _ => k))
  (at level 100, k at level 200, only parsing, right associativity)
  : handler_scope.
Open Scope handler_scope.

Definition raise {A} (e : exn) : M A := fun db => (Raised e, db, []).

Definition emit (e : effect) : M unit := fun db => (Returned tt, db, [e]).

(** [try: body / except: handler], with a bare [except]. *)
Definition try_except {A} (body handler : M A) : M A := fun db =>
  match body db with
  | (Returned a, db1, out1) => (Returned a, db1, out1)
  | (Raised _, db1, out1) =>
      match handler db1 with
      | (r, db2, out2) => (r, db2, out1 ++ out2)
      end
  end.

(** A computation that leaves [games_db] as it found it. *)
Definition read_only {A} (c : M A) : Prop := forall db, (c db).1.2 = db.

(** Attribute access on a value that may be [None]. *)
Definition attr_of {A} (v : option A) : M A :=
  match v with
  | Some a => ret a
  | None => raise AttributeError
  end.

(** [key in games_db]. *)
Definition contains (key : Z) : M bool := fun db =>
  (Returned (bool_decide (is_Some (db !! key))), db, []).

(** [games_db[key] = value]. *)
Definition setitem (key : Z) (value : session) : M unit := fun db =>
  (Returned tt, <[key := value]> db, []).

(** [games_db[key]]. *)
Definition getitem (key : Z) : M session := fun db =>
  match db !! key with
  | Some s => (Returned s, db, [])
  | None => (Raised KeyError, db, [])
  end.

(** [del games_db[key]]. *)
Definition delitem (key : Z) : M unit := fun db =>
  match db !! key with
  | Some _ => (Returned tt, delete key db, [])
  | None => (Raised KeyError, db, [])
  end.

(** [games_db[key]["number"]] and [games_db[key]["attempts"]], read and
    assigned. *)
Definition get_number (key : Z) : M (option Z) :=
  s ← getitem key; ret (number s).

Definition get_attempts (key : Z) : M Z :=
  s ← getitem key; ret (attempts s).

Definition set_number (key : Z) (v : option Z) : M unit :=
  s ← getitem key; setitem key {| number := v; attempts := attempts s |}.

Definition set_attempts (key : Z) (v : Z) : M unit :=
  s ← getitem key; setitem key {| number := number s; attempts := v |}.

(** [update.message.reply_text(body)]. *)
Definition reply_text (update : Update) (body : pystr) : M unit :=
  _ ← attr_of (message update); emit (ReplyText body).

(** [a < b] and [a > b] between an [int] and a slot that may hold [None]:
    comparing with [None] raises [TypeError]. *)
Definition less_than (a : Z) (b : option Z) : M bool :=
  match b with
  | Some n => ret (a <? n)
  | None => raise TypeError
  end.

Definition greater_than (a : Z) (b : option Z) : M bool :=
  match b with
  | Some n => ret (a >? n)
  | None => raise TypeError
  end.

(** ** The message texts of the game and of the dispatcher *)

Definition MSG_CHOSEN : pystr :=
  py "🎮 I've chosen a number between 1-100. Guess it!".
Definition MSG_TOO_LOW : pystr := py "📈 Too low! Try higher.".
Definition MSG_TOO_HIGH : pystr := py "📉 Too high! Try lower.".
Definition MSG_CORRECT (attempts : Z) : pystr :=
  py "🎉 Correct! You got it in " ++ py_str attempts ++ py " attempts!".
Definition MSG_SEND_NUMBER : pystr := py "Please send a number!".
Definition MSG_THINKING : pystr := py "🤖 Thinking...".
Definition MSG_ADMIN_ONLY : pystr := py "❌ Admin only command!".
Definition MSG_BROADCAST_USAGE : pystr := py "Usage: /broadcast <message>".
Definition MSG_BROADCAST_SENT (body : pystr) : pystr :=
  py "📢 Broadcast sent: " ++ body.

Section Bot.

(** The interpreter's Unicode tables, see [py_int]. *)
Variable Py_UNICODE_ISSPACE : N -> bool.
Variable Py_UNICODE_TODECIMAL : N -> option N.

(** Configuration read from the environment when the module is loaded. *)
Variable ADMIN_IDS : list Z.
Variable GEMINI_API_KEY : option pystr.

(** What the external services answer. The adapters catch their own
    exceptions and return a text in that case too. *)
Variable chat_gpt_response : pystr -> pystr.
Variable gemini_chat_response : pystr -> pystr.
Variable download_youtube_result : pystr -> option pystr * pystr.
Variable send_whatsapp_result : pystr -> pystr -> pystr.
Variable get_weather_response : pystr -> pystr.

(** [int(text)] inside a handler. *)
Definition int_of (s : pystr) : M Z :=
  match py_int Py_UNICODE_ISSPACE Py_UNICODE_TODECIMAL s with
  | Some n => ret n
  | None => raise ValueError
  end.

(** Calls to the adapters: the call is recorded, the answer returned. *)
Definition chat_gpt (prompt : pystr) : M pystr :=
  emit (CallChatGpt prompt);; ret (chat_gpt_response prompt).

Definition gemini_chat (prompt : pystr) : M pystr :=
  emit (CallGeminiChat prompt);; ret (gemini_chat_response prompt).

Definition download_youtube (url : pystr) : M (option pystr * pystr) :=
  emit (CallDownloadYoutube url);; ret (download_youtube_result url).

Definition send_whatsapp (to_number body : pystr) : M pystr :=
  emit (CallSendWhatsapp to_number body);;
  ret (send_whatsapp_result to_number body).

Definition get_weather (city : pystr) : M pystr :=
  emit (CallGetWeather city);; ret (get_weather_response city).

(** ** The game *)

Definition guess_number_game (rnd : N) (update : Update)
    (context : CallbackContext) : M unit :=
  user ← attr_of (effective_user update);
  let user_id := id user in
  present ← contains user_id;
  (if negb present
   then setitem user_id {| number := None; attempts := 0 |}
   else ret tt);;
  n ← get_number user_id;
  if negb (truthy_int n) then
    set_number user_id (Some (randint 1 100 rnd));;
    set_attempts user_id 0;;
    reply_text update MSG_CHOSEN
  else
    try_except
      (msg ← attr_of (message update);
       guess ← int_of (text msg);
       a ← get_attempts user_id;
       set_attempts user_id (a + 1);;
       target ← get_number user_id;
       low ← less_than guess target;
       if low then reply_text update MSG_TOO_LOW
       else
         high ← greater_than guess target;
         if high then reply_text update MSG_TOO_HIGH
         else
           attempts ← get_attempts user_id;
           reply_text update (MSG_CORRECT attempts);;
           delitem user_id)
      (reply_text update MSG_SEND_NUMBER).

(** ** Free text *)

Definition handle_message (rnd : N) (update : Update)
    (context : CallbackContext) : M unit :=
  user ← attr_of (effective_user update);
  let user_id := id user in
  present ← contains user_id;
  playing ← (if present
             then n ← get_number user_id; ret (truthy_int n)
             else ret false);
  if playing then guess_number_game rnd update context
  else
    msg ← attr_of (message update);
    let text := text msg in
    if startswith text (py "/") then ret tt
    else
      reply_text update MSG_THINKING;;
      response ← (if truthy_str GEMINI_API_KEY
                  then gemini_chat text
                  else chat_gpt text);
      reply_text update (take 4000 response).

(** ** The admin command *)

Definition broadcast_command (update : Update) (context : CallbackContext)
  : M unit :=
  user ← attr_of (effective_user update);
  let user_id := id user in
  if negb (bool_decide (user_id ∈ ADMIN_IDS)) then
    reply_text update MSG_ADMIN_ONLY
  else
    match args context with
    | [] => reply_text update MSG_BROADCAST_USAGE
    | _ :: _ =>
        let message := join (py " ") (args context) in
        reply_text update (MSG_BROADCAST_SENT message)
    end.

(** ** The other handlers that [main] registers

    None of them mentions [games_db]. *)

Definition start (update : Update) (context : CallbackContext) : M unit :=
  let keyboard :=
    [ [ (py "🤖 AI Chat", py "ai_chat"); (py "📥 YouTube DL", py "youtube") ];
      [ (py "🌤️ Weather", py "weather"); (py "📱 WhatsApp", py "whatsapp") ];
      [ (py "🎮 Games", py "games"); (py "ℹ️ Help", py "help") ] ] in
  _ ← attr_of (message update);
  user ← attr_of (effective_user update);
  emit (ReplyKeyboard
          (py "👋 Hello " ++ first_name user ++ py "! I'm SKY BOT 🤖"
             ++ [10%N] ++ py "Choose an option below:")
          keyboard).

Definition help_text : pystr := py "
📚 **SKY BOT COMMANDS**:

🤖 **AI Chat**
• `/chatgpt <text>` - ChatGPT response
• `/gemini <text>` - Google Gemini response
• Just send any message for AI reply

📥 **Downloader**
• `/youtube <url>` - Download YouTube video
• `/ytaudio <url>` - Download YouTube audio
• `/download <url>` - Download any file

📱 **WhatsApp Tools**
• `/whatsapp <number> <message>` - Send WhatsApp message

🌤️ **Weather**
• `/weather <city>` - Get weather info

🎮 **Games**
• `/game` - Start number guessing game
• Send numbers to guess

⚙️ **Admin** (Admin only)
• `/broadcast <message>` - Broadcast to all users
• `/stats` - Bot statistics

📊 **Utilities**
• `/quote` - Random quote
• `/time` - Current time
• `/calc <expression>` - Calculator
".

Definition help_command (update : Update) (context : CallbackContext)
  : M unit :=
  reply_text update help_text.

Definition chatgpt_command (update : Update) (context : CallbackContext)
  : M unit :=
  match args context with
  | [] => reply_text update (py "Usage: /chatgpt <your question>")
  | _ :: _ =>
      let prompt := join (py " ") (args context) in
      reply_text update MSG_THINKING;;
      response ← chat_gpt prompt;
      reply_text update (take 4000 response)
  end.

Definition youtube_command (update : Update) (context : CallbackContext)
  : M unit :=
  match args context with
  | [] => reply_text update (py "Usage: /youtube <YouTube URL>")
  | url :: _ =>
      reply_text update (py "📥 Downloading video...");;
      r ← download_youtube url;
      let '(filepath, result) := r in
      if truthy_str filepath then
        match filepath with
        | Some path =>
            _ ← attr_of (message update);
            emit (ReplyVideo path (py "✅ Here's your video!"));;
            emit (OsRemove path)
        | None => ret tt
        end
      else reply_text update result
  end.

Definition whatsapp_command (update : Update) (context : CallbackContext)
  : M unit :=
  match args context with
  | number :: ((_ :: _) as rest) =>
      let message := join (py " ") rest in
      result ← send_whatsapp number message;
      reply_text update result
  | _ =>
      reply_text update (py "Usage: /whatsapp <phone_number> <message>")
  end.

Definition weather_command (update : Update) (context : CallbackContext)
  : M unit :=
  match args context with
  | [] => reply_text update (py "Usage: /weather <city>")
  | _ :: _ =>
      let city := join (py " ") (args context) in
      weather ← get_weather city;
      reply_text update weather
  end.

Definition button_handler (update : Update) (context : CallbackContext)
  : M unit :=
  query ← attr_of (callback_query update);
  emit QueryAnswer;;
  if bool_decide (data query = py "ai_chat") then
    emit (EditMessageText
            (py "🤖 AI Chat activated! Just send me any message."))
  else if bool_decide (data query = py "youtube") then
    emit (EditMessageText (py "📥 Send YouTube URL or use /youtube <url>"))
  else if bool_decide (data query = py "weather") then
    emit (EditMessageText (py "🌤️ Use /weather <city> to get weather info"))
  else if bool_decide (data query = py "whatsapp") then
    emit (EditMessageText
            (py "📱 Use /whatsapp <number> <message> to send WhatsApp"))
  else if bool_decide (data query = py "games") then
    emit (EditMessageText (py "🎮 Use /game to start number guessing game!"))
  else if bool_decide (data query = py "help") then
    help_command update context
  else ret tt.

(** ** The handler table of [main]

    An update reaches one handler: a command the handler registered under
    its name (none when the name is not registered), a button press
    [button_handler], a text that is not a command [handle_message]. The
    transport has classified the update and lowered the command name. *)

Inductive event :=
| OnCommand (name : pystr)
| OnButton
| OnText.

Definition command_handlers
  : list (pystr * (N -> Update -> CallbackContext -> M unit)) :=
  [ (py "start", fun _ => start);
    (py "help", fun _ => help_command);
    (py "chatgpt", fun _ => chatgpt_command);
    (py "gemini", fun _ => chatgpt_command);
    (py "youtube", fun _ => youtube_command);
    (py "ytaudio", fun _ => youtube_command);
    (py "whatsapp", fun _ => whatsapp_command);
    (py "weather", fun _ => weather_command);
    (py "game", guess_number_game);
    (py "broadcast", fun _ => broadcast_command) ].

Fixpoint find_handler {H} (name : pystr) (table : list (pystr * H))
  : option H :=
  match table with
  | [] => None
  | (n, h) :: table' =>
      if bool_decide (n = name) then Some h else find_handler name table'
  end.

Definition dispatch (ev : event) (rnd : N) (update : Update)
    (context : CallbackContext) : M unit :=
  match ev with
  | OnCommand name =>
      match find_handler name command_handlers with
      | Some handler => handler rnd update context
      | None => ret tt
      end
  | OnButton => button_handler update context
  | OnText => handle_message rnd update context
  end.

(** ** Sequences of updates

    One invocation: the kind of update, what the generator would draw, the
    update and the context. An exception raised by a handler reaches the
    error handler, which logs it; the next update is processed as usual. *)

Record invocation := {
  inv_event : event;
  inv_rnd : N;
  inv_update : Update;
  inv_context : CallbackContext
}.

Definition step (i : invocation) (db : gmap Z session)
  : gmap Z session * list effect :=
  match dispatch (inv_event i) (inv_rnd i) (inv_update i) (inv_context i) db with
  | (_, db', out) => (db', out)
  end.

Fixpoint run (invs : list invocation) (db : gmap Z session)
  : gmap Z session * list effect :=
  match invs with
  | [] => (db, [])
  | i :: invs' =>
      match step i db with
      | (db1, out1) =>
          match run invs' db1 with
          | (db2, out2) => (db2, out1 ++ out2)
          end
      end
  end.

(** ** Vocabulary of the properties *)

(** The test of [handle_message] for "the user is playing": the user has an
    entry and its number is truthy. *)
Definition playing (db : gmap Z session) (u : Z) : bool :=
  match db !! u with
  | Some s => truthy_int (number s)
  | None => false
  end.

(** The sender and the text of an update, when it has them. *)
Definition sender (update : Update) : option Z :=
  match effective_user update with
  | Some user => Some (id user)
  | None => None
  end.

Definition sent_text (update : Update) : option pystr :=
  match message update with
  | Some msg => Some (text msg)
  | None => None
  end.

(** The number a text message stands for, when [int] accepts its text. *)
Definition guess_of (update : Update) : option Z :=
  match sent_text update with
  | Some t => py_int Py_UNICODE_ISSPACE Py_UNICODE_TODECIMAL t
  | None => None
  end.

(** An invocation that reaches the game engine: the command [/game], or a
    text that is not a command. *)
Definition to_game (i : invocation) : bool :=
  match inv_event i with
  | OnCommand name => bool_decide (name = py "game")
  | OnText => true
  | OnButton => false
  end.

(** The calls to the two chat adapters among the effects. *)
Definition is_ai_call (e : effect) : bool :=
  match e with
  | CallChatGpt _ | CallGeminiChat _ => true
  | _ => false
  end.

(** An invocation that reaches the game engine on behalf of [u]. *)
Definition concerns (u : Z) (i : invocation) : bool :=
  to_game i && bool_decide (sender (inv_update i) = Some u).

(** An invocation that reaches the game engine on behalf of [u], with a
    message. *)
Definition game_text_from (u : Z) (i : invocation) : Prop :=
  concerns u i = true /\ is_Some (message (inv_update i)).


(** A stored session as the game intends it. *)
Definition session_ok (s : session) : Prop :=
  (exists t, number s = Some t /\ 1 <= t <= 100) /\ 0 <= attempts s.

Definition store_ok (db : gmap Z session) : Prop :=
  forall u s, db !! u = Some s -> session_ok s.

(** ** A configuration and some updates, for the examples

    The white space of Unicode above ASCII and four of its runs of decimal
    digits (Arabic-Indic, extended Arabic-Indic, Devanagari, full width);
    one administrator; a Gemini key; adapters that answer a fixed text. *)

Definition example_isspace (c : N) : bool :=
  (bool_decide (c ∈ [133; 160; 5760; 8232; 8233; 8239; 8287; 12288]%N)
   || (8192 <=? c) && (c <=? 8202))%N.

Definition example_todecimal (c : N) : option N :=
  let in_run (zero : N) := ((zero <=? c) && (c <=? zero + 9))%N in
  if in_run 1632%N then Some (c - 1632)%N
  else if in_run 1776%N then Some (c - 1776)%N
  else if in_run 2406%N then Some (c - 2406)%N
  else if in_run 65296%N then Some (c - 65296)%N
  else None.

Definition example_admins : list Z := [1001].

Definition example_key : option pystr := Some (py "k3y").

Definition example_answer (prompt : pystr) : pystr := py "Hello!".

Definition example_download (url : pystr) : option pystr * pystr :=
  (None, py "unavailable").

Definition example_relay (to_number body : pystr) : pystr := py "sent".

Definition ada : User := {| id := 7; first_name := py "Ada" |}.


Definition example_message (user : User) (body : string) : Update :=
  {| effective_user := Some user;
     message := Some {| text := py body |};
     callback_query := None |}.

Definition example_context : CallbackContext := {| args := [] |}.

Definition example_invocation (ev : event) (rnd : N) (user : User)
    (body : string) : invocation :=
  {| inv_event := ev; inv_rnd := rnd;
     inv_update := example_message user body;
     inv_context := example_context |}.

(** ** Loading [ADMIN_IDS]

    [[int(id.strip()) for id in os.getenv("ADMIN_IDS", "").split(",") if id]],
    evaluated when the module is loaded. *)

(** [s.split(sep)] for a separator of one code point. *)
Fixpoint split (sep : N) (s : pystr) : list pystr :=
  match s with
  | [] => [[]]
  | c :: s' =>
      if (c =? sep)%N then [] :: split sep s'
      else
        match split sep s' with
        | w :: ws => (c :: w) :: ws
        | [] => [[c]]
        end
  end.

(** [str.isspace] of one code point: the ASCII white space of [str], which
    has the separators 28 to 31 besides that of [int], and the table of the
    interpreter from 128 on. *)
Definition isspace (c : N) : bool :=
  if (c <? 128)%N
  then ((9 <=? c) && (c <=? 13) || (28 <=? c) && (c <=? 32))%N
  else Py_UNICODE_ISSPACE c.

Fixpoint lstrip (s : pystr) : pystr :=
  match s with
  | c :: s' => if isspace c then lstrip s' else s
  | [] => []
  end.

(** [s.strip()]. *)
Definition strip (s : pystr) : pystr := rev (lstrip (rev (lstrip s))).

(** The list comprehension: [None] when one of the conversions raises
    [ValueError], which ends the loading of the module. [env] is the value
    of the environment variable, [None] when it is not set. *)
Definition load_admin_ids (env : option pystr) : option (list Z) :=
  let value := match env with Some v => v | None => [] end in
  let ids :=
    List.filter (fun id => match id with [] => false | _ :: _ => true end)
      (split 44%N value) in
  mapM (fun id => py_int Py_UNICODE_ISSPACE Py_UNICODE_TODECIMAL (strip id))
    ids.

(** ** Vocabulary of the further properties *)


(** The session a new game starts with. *)
Definition fresh_session (rnd : N) : session :=
  {| number := Some (randint 1 100 rnd); attempts := 0 |}.

(** The tags of the buttons of a keyboard. *)
Definition keyboard_tags (keyboard : list (list (pystr * pystr)))
  : list pystr :=
  map snd (concat keyboard).

(** ** More updates for the examples *)

(** An edited message: the update has its user and no [message]. *)
Definition example_edited (user : User) : Update :=
  {| effective_user := Some user; message := None; callback_query := None |}.

(** A button press: the update has its user and the press, no [message]. *)
Definition example_press (user : User) (tag : string) : Update :=
  {| effective_user := Some user;
     message := None;
     callback_query := Some {| data := py tag |} |}.


(** * Properties *)

Implicit Types (db : gmap Z session) (update : Update).
Implicit Types (context : CallbackContext) (user : User) (msg : Message).

(** ** The primitives *)

Lemma randint_range a b rnd : a <= b -> a <= randint a b rnd <= b.
Proof.
  intros Hab. unfold randint, _randbelow.
  pose proof (Z.mod_pos_bound (Z.of_N rnd) (b - a + 1)). lia.
Qed.

Lemma reply_text_message update msg body db :
  message update = Some msg ->
  reply_text update body db = (Returned tt, db, [ReplyText body]).
Proof. intros Hm. unfold reply_text, bind. rewrite Hm. reflexivity. Qed.

Lemma reply_text_no_message update body db :
  message update = None ->
  reply_text update body db = (Raised AttributeError, db, []).
Proof. intros Hm. unfold reply_text, bind. rewrite Hm. reflexivity. Qed.

(** [reply_text] never touches the store. *)
Lemma reply_text_store update body db :
  (reply_text update body db).1.2 = db.
Proof.
  destruct (message update) as [msg|] eqn:Hm.
  - by rewrite (reply_text_message _ msg).
  - by rewrite reply_text_no_message.
Qed.

(** Unfolds the monad down to the dictionary operations. *)
Create HintDb handler.
#[local] Hint Unfold bind ret raise emit try_except attr_of contains setitem
  delitem get_number get_attempts set_number set_attempts getitem
  less_than greater_than int_of : handler.

#[local] Arguments reply_text : simpl never.
#[local] Arguments MSG_CORRECT : simpl never.
#[local] Arguments py : simpl never.
#[local] Arguments startswith : simpl never.

Ltac unfold_monad := repeat autounfold with handler; cbn beta iota.

Lemma triple_eta {A B C} (x : A * B * C) :
  (let (p, c) := x in let (a, b) := p in (a, b, c)) = x.
Proof. by destruct x as [[a b] c]. Qed.

(** ** The text of a command is not a number *)

Lemma py_int_command (t : pystr) :
  startswith t (py "/") = true ->
  py_int Py_UNICODE_ISSPACE Py_UNICODE_TODECIMAL t = None.
Proof.
  destruct t as [|c t]; [done|].
  change (py "/") with [47%N]. unfold startswith. rewrite andb_true_r.
  intros ->%N.eqb_eq. unfold py_int. simpl.
  destruct (to_ascii _ _ t); reflexivity.
Qed.

(** ** The game, case by case *)

Lemma game_no_user rnd update context db :
  effective_user update = None ->
  guess_number_game rnd update context db = (Raised AttributeError, db, []).
Proof. intros Hu. unfold guess_number_game. rewrite Hu. reflexivity. Qed.

Lemma game_start rnd update context db user :
  effective_user update = Some user ->
  db !! id user = None ->
  guess_number_game rnd update context db
  = reply_text update MSG_CHOSEN
      (<[id user := {| number := Some (randint 1 100 rnd); attempts := 0 |}]> db).
Proof.
  intros Hu Hdb. unfold guess_number_game. rewrite Hu. unfold_monad.
  rewrite Hdb. simpl. rewrite !lookup_insert_eq. simpl.
  rewrite !lookup_insert_eq. simpl. rewrite !insert_insert_eq.
  by rewrite !triple_eta.
Qed.

Lemma game_restart rnd update context db user s :
  effective_user update = Some user ->
  db !! id user = Some s ->
  truthy_int (number s) = false ->
  guess_number_game rnd update context db
  = reply_text update MSG_CHOSEN
      (<[id user := {| number := Some (randint 1 100 rnd); attempts := 0 |}]> db).
Proof.
  intros Hu Hdb Hn. unfold guess_number_game. rewrite Hu. unfold_monad.
  repeat first [rewrite Hdb | rewrite Hn | rewrite lookup_insert_eq
               | rewrite insert_insert_eq | progress simpl].
  by rewrite !triple_eta.
Qed.

Lemma game_no_message rnd update context db user s :
  effective_user update = Some user ->
  db !! id user = Some s ->
  truthy_int (number s) = true ->
  message update = None ->
  guess_number_game rnd update context db = (Raised AttributeError, db, []).
Proof.
  intros Hu Hdb Hn Hm. unfold guess_number_game. rewrite Hu. unfold_monad.
  rewrite Hdb. simpl. rewrite Hdb. simpl. rewrite Hn. simpl.
  rewrite Hm. simpl. rewrite reply_text_no_message by done. reflexivity.
Qed.

Lemma game_not_a_number rnd update context db user s msg :
  effective_user update = Some user ->
  db !! id user = Some s ->
  truthy_int (number s) = true ->
  message update = Some msg ->
  py_int Py_UNICODE_ISSPACE Py_UNICODE_TODECIMAL (text msg) = None ->
  guess_number_game rnd update context db
  = (Returned tt, db, [ReplyText MSG_SEND_NUMBER]).
Proof.
  intros Hu Hdb Hn Hm Hp. unfold guess_number_game. rewrite Hu. unfold_monad.
  rewrite Hdb. simpl. rewrite Hdb. simpl. rewrite Hn. simpl.
  rewrite Hm. simpl. rewrite Hp.
  rewrite (reply_text_message _ msg) by done. reflexivity.
Qed.

Lemma game_guess rnd update context db user t a msg guess :
  effective_user update = Some user ->
  db !! id user = Some {| number := Some t; attempts := a |} ->
  t <> 0 ->
  message update = Some msg ->
  py_int Py_UNICODE_ISSPACE Py_UNICODE_TODECIMAL (text msg) = Some guess ->
  guess_number_game rnd update context db
  = if guess <? t then
      (Returned tt, <[id user := {| number := Some t; attempts := a + 1 |}]> db,
       [ReplyText MSG_TOO_LOW])
    else if guess >? t then
      (Returned tt, <[id user := {| number := Some t; attempts := a + 1 |}]> db,
       [ReplyText MSG_TOO_HIGH])
    else
      (Returned tt, delete (id user) db, [ReplyText (MSG_CORRECT (a + 1))]).
Proof.
  intros Hu Hdb Ht Hm Hp. unfold guess_number_game. rewrite Hu. unfold_monad.
  assert ((t =? 0) = false) as Ht' by lia.
  repeat first [rewrite Hdb | rewrite Hm | rewrite Hp | rewrite Ht'
               | rewrite lookup_insert_eq | progress simpl].
  destruct (guess <? t); [|destruct (guess >? t)];
    repeat first [rewrite (reply_text_message _ msg _ _ Hm)
                 | rewrite lookup_insert_eq | progress simpl];
    try reflexivity.
  by rewrite delete_insert_eq.
Qed.

(** ** Free text, case by case *)

Lemma handle_message_no_user rnd update context db :
  effective_user update = None ->
  handle_message rnd update context db = (Raised AttributeError, db, []).
Proof. intros Hu. unfold handle_message. rewrite Hu. reflexivity. Qed.

Lemma handle_message_playing rnd update context db user :
  effective_user update = Some user ->
  playing db (id user) = true ->
  handle_message rnd update context db
  = guess_number_game rnd update context db.
Proof.
  unfold playing. intros Hu Hp.
  destruct (db !! id user) as [s|] eqn:Hdb; [|done].
  unfold handle_message. rewrite Hu. unfold_monad.
  repeat first [rewrite Hdb | rewrite Hp | progress simpl].
  by rewrite !triple_eta.
Qed.

Lemma handle_message_idle_no_message rnd update context db user :
  effective_user update = Some user ->
  playing db (id user) = false ->
  message update = None ->
  handle_message rnd update context db = (Raised AttributeError, db, []).
Proof.
  unfold playing. intros Hu Hp Hm.
  unfold handle_message. rewrite Hu. unfold_monad.
  destruct (db !! id user) as [s|] eqn:Hdb;
    repeat first [rewrite Hdb | rewrite Hp | rewrite Hm | progress simpl];
    reflexivity.
Qed.

Lemma handle_message_idle rnd update context db user msg :
  effective_user update = Some user ->
  playing db (id user) = false ->
  message update = Some msg ->
  handle_message rnd update context db
  = if startswith (text msg) (py "/") then (Returned tt, db, [])
    else if truthy_str GEMINI_API_KEY then
      (Returned tt, db,
       [ReplyText MSG_THINKING; CallGeminiChat (text msg);
        ReplyText (take 4000 (gemini_chat_response (text msg)))])
    else
      (Returned tt, db,
       [ReplyText MSG_THINKING; CallChatGpt (text msg);
        ReplyText (take 4000 (chat_gpt_response (text msg)))]).
Proof.
  unfold playing. intros Hu Hp Hm.
  unfold handle_message, gemini_chat, chat_gpt. rewrite Hu. unfold_monad.
  destruct (db !! id user) as [s|] eqn:Hdb;
    repeat first [rewrite Hdb | rewrite Hp | rewrite Hm | progress simpl];
    destruct (startswith (text msg) (py "/")); try reflexivity;
    rewrite (reply_text_message _ msg _ _ Hm);
    destruct (truthy_str GEMINI_API_KEY); simpl;
    rewrite (reply_text_message _ msg _ _ Hm); reflexivity.
Qed.

(** ** Handlers that leave the store alone *)

Lemma read_only_ret {A} (a : A) : read_only (ret a).
Proof. by intros db. Qed.

Lemma read_only_raise {A} e : read_only (@raise A e).
Proof. by intros db. Qed.

Lemma read_only_emit e : read_only (emit e).
Proof. by intros db. Qed.

Lemma read_only_attr_of {A} (v : option A) : read_only (attr_of v).
Proof. by destruct v; intros db. Qed.

Lemma read_only_bind {A B} (c : M A) (k : A -> M B) :
  read_only c -> (forall a, read_only (k a)) -> read_only (bind c k).
Proof.
  intros Hc Hk db. unfold bind. specialize (Hc db).
  destruct (c db) as [[[a|e] db1] out1]; simpl in *; subst; [|done].
  specialize (Hk a db). by destruct (k a db) as [[r db2] out2].
Qed.

Lemma read_only_reply_text update body : read_only (reply_text update body).
Proof. intros db. apply reply_text_store. Qed.

Ltac read_only_tac :=
  repeat first
    [ apply read_only_ret | apply read_only_raise | apply read_only_emit
    | apply read_only_attr_of | apply read_only_reply_text
    | apply read_only_bind; [|intros ?]
    | progress case_match ].

Lemma broadcast_command_read_only update context :
  read_only (broadcast_command update context).
Proof. unfold broadcast_command. read_only_tac. Qed.

Lemma start_read_only update context : read_only (start update context).
Proof. unfold start. read_only_tac. Qed.

Lemma help_command_read_only update context :
  read_only (help_command update context).
Proof. unfold help_command. read_only_tac. Qed.

Lemma chatgpt_command_read_only update context :
  read_only (chatgpt_command update context).
Proof. unfold chatgpt_command, chat_gpt. read_only_tac. Qed.

Lemma youtube_command_read_only update context :
  read_only (youtube_command update context).
Proof. unfold youtube_command, download_youtube. read_only_tac. Qed.

Lemma whatsapp_command_read_only update context :
  read_only (whatsapp_command update context).
Proof. unfold whatsapp_command, send_whatsapp. read_only_tac. Qed.

Lemma weather_command_read_only update context :
  read_only (weather_command update context).
Proof. unfold weather_command, get_weather. read_only_tac. Qed.

Lemma button_handler_read_only update context :
  read_only (button_handler update context).
Proof.
  unfold button_handler. read_only_tac; apply help_command_read_only.
Qed.

(** ** The handler table *)

Lemma dispatch_game rnd update context :
  dispatch (OnCommand (py "game")) rnd update context
  = guess_number_game rnd update context.
Proof. reflexivity. Qed.


(** ** The store invariant, one handler at a time *)

Lemma store_ok_empty : store_ok ∅.
Proof. intros u s. by rewrite lookup_empty. Qed.

Lemma store_ok_insert db u s :
  store_ok db -> session_ok s -> store_ok (<[u := s]> db).
Proof.
  intros Hdb Hs v s'. rewrite lookup_insert.
  case_decide; [by intros [= <-]|]. apply Hdb.
Qed.

Lemma store_ok_delete db u : store_ok db -> store_ok (delete u db).
Proof.
  intros Hdb v s'. rewrite lookup_delete.
  case_decide; [done|]. apply Hdb.
Qed.

Lemma store_ok_playing db u s :
  store_ok db -> db !! u = Some s -> truthy_int (number s) = true.
Proof.
  intros Hdb Hu. destruct (Hdb u s Hu) as [(t & -> & Ht) _].
  simpl. destruct (Z.eqb_spec t 0); [lia|done].
Qed.

Lemma game_store_ok rnd update context db :
  store_ok db -> store_ok (guess_number_game rnd update context db).1.2.
Proof.
  intros Hok.
  destruct (effective_user update) as [user|] eqn:Hu;
    [|by rewrite game_no_user].
  destruct (db !! id user) as [s|] eqn:Hdb.
  - pose proof (store_ok_playing _ _ _ Hok Hdb) as Hplay.
    destruct (message update) as [msg|] eqn:Hm;
      [|by rewrite (game_no_message _ _ _ _ user s)].
    destruct (py_int Py_UNICODE_ISSPACE Py_UNICODE_TODECIMAL (text msg))
      as [guess|] eqn:Hp;
      [|by rewrite (game_not_a_number _ _ _ _ user s msg)].
    destruct (Hok _ _ Hdb) as [(t & Ht & Hrange) Ha].
    destruct s as [n a]; simpl in *; subst n.
    rewrite (game_guess _ _ _ _ user t a msg guess) by (done || lia).
    assert (session_ok {| number := Some t; attempts := a + 1 |}).
    { split; simpl; [eauto|lia]. }
    destruct (guess <? t); [|destruct (guess >? t)]; simpl;
      auto using store_ok_insert, store_ok_delete.
  - rewrite (game_start _ _ _ _ user) by done. rewrite reply_text_store.
    apply store_ok_insert; [done|]. split; simpl; [|lia].
    eexists; split; [done|]. apply randint_range. lia.
Qed.

Lemma handle_message_store_ok rnd update context db :
  store_ok db -> store_ok (handle_message rnd update context db).1.2.
Proof.
  intros Hok.
  destruct (effective_user update) as [user|] eqn:Hu;
    [|by rewrite handle_message_no_user].
  destruct (playing db (id user)) eqn:Hplay.
  - rewrite (handle_message_playing _ _ _ _ user) by done.
    by apply game_store_ok.
  - destruct (message update) as [msg|] eqn:Hm;
      [|by rewrite (handle_message_idle_no_message _ _ _ _ user)].
    rewrite (handle_message_idle _ _ _ _ user msg) by done.
    by repeat case_match.
Qed.

Lemma read_only_store_ok {A} (c : M A) db :
  read_only c -> store_ok db -> store_ok (c db).1.2.
Proof. intros Hc Hok. by rewrite Hc. Qed.

Lemma dispatch_store_ok ev rnd update context db :
  store_ok db -> store_ok (dispatch ev rnd update context db).1.2.
Proof.
  intros Hok. destruct ev as [name| |]; simpl.
  - unfold command_handlers. simpl.
    repeat case_bool_decide;
      auto using game_store_ok, read_only_store_ok, start_read_only,
        help_command_read_only, chatgpt_command_read_only,
        youtube_command_read_only, whatsapp_command_read_only,
        weather_command_read_only, broadcast_command_read_only.
  - apply read_only_store_ok; [apply button_handler_read_only|done].
  - by apply handle_message_store_ok.
Qed.

Lemma step_store_ok i db : store_ok db -> store_ok (step i db).1.
Proof.
  intros Hok. unfold step.
  pose proof (dispatch_store_ok (inv_event i) (inv_rnd i) (inv_update i)
                (inv_context i) db Hok) as H.
  by destruct (dispatch _ _ _ _ db) as [[r db'] out].
Qed.

Lemma run_store_ok invs db : store_ok db -> store_ok (run invs db).1.
Proof.
  revert db. induction invs as [|i invs IH]; intros db Hok; [done|].
  simpl. pose proof (step_store_ok i db Hok) as H1.
  destruct (step i db) as [db1 out1]. specialize (IH db1 H1).
  by destruct (run invs db1) as [db2 out2].
Qed.

(** ** What a handler does to the entries of the other users *)

Lemma game_frame rnd update context db v :
  sender update <> Some v ->
  (guess_number_game rnd update context db).1.2 !! v = db !! v.
Proof.
  unfold sender. intros Hv.
  destruct (effective_user update) as [user|] eqn:Hu;
    [|by rewrite game_no_user].
  assert (id user <> v) as Hne by congruence.
  destruct (db !! id user) as [[n a]|] eqn:Hdb.
  - destruct (truthy_int n) eqn:Hn.
    + destruct n as [t|]; [|done].
      assert (t <> 0) by (simpl in Hn; by destruct (Z.eqb_spec t 0)).
      destruct (message update) as [msg|] eqn:Hm;
        [|by rewrite (game_no_message _ _ _ _ user _ Hu Hdb)].
      destruct (py_int Py_UNICODE_ISSPACE Py_UNICODE_TODECIMAL (text msg))
        as [guess|] eqn:Hp;
        [|by rewrite (game_not_a_number _ _ _ _ user _ msg Hu Hdb)].
      rewrite (game_guess _ _ _ _ user t a msg guess) by done.
      destruct (guess <? t); [|destruct (guess >? t)]; simpl;
        by rewrite ?lookup_insert_ne, ?lookup_delete_ne.
    + rewrite (game_restart _ _ _ _ user _ Hu Hdb) by done.
      by rewrite reply_text_store, lookup_insert_ne.
  - rewrite (game_start _ _ _ _ user) by done.
    by rewrite reply_text_store, lookup_insert_ne.
Qed.

Lemma handle_message_frame rnd update context db v :
  sender update <> Some v ->
  (handle_message rnd update context db).1.2 !! v = db !! v.
Proof.
  intros Hv.
  destruct (effective_user update) as [user|] eqn:Hu;
    [|by rewrite handle_message_no_user].
  destruct (playing db (id user)) eqn:Hplay.
  - rewrite (handle_message_playing _ _ _ _ user) by done.
    by apply game_frame.
  - destruct (message update) as [msg|] eqn:Hm;
      [|by rewrite (handle_message_idle_no_message _ _ _ _ user)].
    rewrite (handle_message_idle _ _ _ _ user msg) by done.
    by repeat case_match.
Qed.

Lemma dispatch_other_command name rnd update context :
  name <> py "game" ->
  read_only (dispatch (OnCommand name) rnd update context).
Proof.
  intros Hname. simpl. unfold command_handlers. simpl.
  repeat case_bool_decide; try done;
    auto using start_read_only, help_command_read_only,
      chatgpt_command_read_only, youtube_command_read_only,
      whatsapp_command_read_only, weather_command_read_only,
      broadcast_command_read_only, read_only_ret.
Qed.

Lemma concerns_spec u i :
  concerns u i = true
  <-> to_game i = true /\ sender (inv_update i) = Some u.
Proof.
  unfold concerns. by rewrite andb_true_iff, bool_decide_eq_true.
Qed.


(** ** Runs of the game for one user *)

Lemma to_game_dispatch i :
  to_game i = true ->
  dispatch (inv_event i) (inv_rnd i) (inv_update i) (inv_context i)
  = handle_message (inv_rnd i) (inv_update i) (inv_context i)
  \/ dispatch (inv_event i) (inv_rnd i) (inv_update i) (inv_context i)
     = guess_number_game (inv_rnd i) (inv_update i) (inv_context i).
Proof.
  unfold to_game. destruct (inv_event i) as [name| |]; [|done|by left].
  intros ->%bool_decide_eq_true. by right.
Qed.

(** While [u] plays, an invocation that reaches the game engine on behalf
    of [u] runs [guess_number_game], by either route. *)
Lemma step_game_text u i db :
  concerns u i = true ->
  playing db u = true ->
  step i db
  = match guess_number_game (inv_rnd i) (inv_update i) (inv_context i) db with
    | (_, db', out) => (db', out)
    end.
Proof.
  intros [Hg Hs]%concerns_spec Hplay. unfold step, sender in *.
  destruct (effective_user (inv_update i)) as [user|] eqn:Hu; [|done].
  injection Hs as <-.
  destruct (to_game_dispatch i Hg) as [-> | ->]; [|done].
  by rewrite (handle_message_playing _ _ _ _ user).
Qed.

Lemma playing_entry db u t a :
  db !! u = Some {| number := Some t; attempts := a |} ->
  t <> 0 ->
  playing db u = true.
Proof.
  intros Hdb Ht. unfold playing. rewrite Hdb. simpl.
  by destruct (Z.eqb_spec t 0).
Qed.

Lemma step_playing u i db t a :
  game_text_from u i ->
  db !! u = Some {| number := Some t; attempts := a |} ->
  t <> 0 ->
  step i db
  = match guess_of (inv_update i) with
    | None => (db, [ReplyText MSG_SEND_NUMBER])
    | Some guess =>
        if guess <? t then
          (<[u := {| number := Some t; attempts := a + 1 |}]> db,
           [ReplyText MSG_TOO_LOW])
        else if guess >? t then
          (<[u := {| number := Some t; attempts := a + 1 |}]> db,
           [ReplyText MSG_TOO_HIGH])
        else (delete u db, [ReplyText (MSG_CORRECT (a + 1))])
    end.
Proof.
  intros [Hc [msg Hm]] Hdb Ht.
  rewrite (step_game_text u) by eauto using playing_entry.
  apply concerns_spec in Hc as [_ Hs].
  unfold sender, guess_of, sent_text in *.
  destruct (effective_user (inv_update i)) as [user|] eqn:Hu; [|done].
  injection Hs as <-. rewrite Hm.
  destruct (py_int _ _ (text msg)) as [guess|] eqn:Hp.
  - rewrite (game_guess _ _ _ _ user t a msg guess) by done.
    by destruct (guess <? t); [|destruct (guess >? t)].
  - rewrite (game_not_a_number _ _ _ _ user _ msg Hu Hdb); [done| |done..].
    simpl. by destruct (Z.eqb_spec t 0).
Qed.






(** ** The claims *)


(** C2. While a user plays, any number of messages whose text [int] rejects,
    sent to the game by either route, leave the store as it was (the
    session, its number and its attempts) and are each answered by the
    request to send a number. *)
Theorem non_numeric_guesses_keep_session u invs db :
  playing db u = true ->
  Forall (game_text_from u) invs ->
  Forall (fun i => guess_of (inv_update i) = None) invs ->
  run invs db = (db, replicate (length invs) (ReplyText MSG_SEND_NUMBER)).
Proof.
  intros Hplay Hfrom Hnone.
  induction invs as [|i invs IH]; [done|].
  apply Forall_cons in Hfrom as [Hi Hfrom].
  apply Forall_cons in Hnone as [Hni Hnone].
  unfold playing in Hplay.
  destruct (db !! u) as [[[t|] a]|] eqn:Hdb; [|done..].
  assert (t <> 0) by (simpl in Hplay; by destruct (Z.eqb_spec t 0)).
  simpl. rewrite (step_playing u i db t a), Hni by done.
  rewrite IH by (done || by rewrite Hdb). done.
Qed.


(** C4. For a user who plays and a text that [int] accepts, the attempts
    are incremented and the guess is compared with the target: below it the
    reply is "too low" and the session stays, above it the reply is "too
    high" and the session stays, equal to it the reply is the success
    message. *)
Theorem guess_follows_ordering rnd update context db user msg t a guess :
  effective_user update = Some user ->
  message update = Some msg ->
  db !! id user = Some {| number := Some t; attempts := a |} ->
  playing db (id user) = true ->
  py_int Py_UNICODE_ISSPACE Py_UNICODE_TODECIMAL (text msg) = Some guess ->
  let result := guess_number_game rnd update context db in
  let counted := <[id user := {| number := Some t; attempts := a + 1 |}]> db in
  (guess < t ->
     result = (Returned tt, counted, [ReplyText MSG_TOO_LOW])
     /\ playing counted (id user) = true)
  /\ (guess > t ->
     result = (Returned tt, counted, [ReplyText MSG_TOO_HIGH])
     /\ playing counted (id user) = true)
  /\ (guess = t ->
     result
     = (Returned tt, delete (id user) db, [ReplyText (MSG_CORRECT (a + 1))])).
Proof.
  intros Hu Hm Hdb Hplay Hp result counted.
  assert (t <> 0) as Ht.
  { unfold playing in Hplay. rewrite Hdb in Hplay. simpl in Hplay.
    by destruct (Z.eqb_spec t 0). }
  assert (playing counted (id user) = true) as Hplay'.
  { unfold playing, counted. rewrite lookup_insert_eq. simpl.
    by destruct (Z.eqb_spec t 0). }
  unfold result. rewrite (game_guess _ _ _ _ user t a msg guess) by done.
  repeat split; try done.
  - destruct (Z.ltb_spec guess t); [done|lia].
  - destruct (Z.ltb_spec guess t); [lia|].
    destruct (Z.gtb_spec guess t); [done|lia].
  - destruct (Z.ltb_spec guess t); [lia|].
    destruct (Z.gtb_spec guess t); [lia|done].
Qed.

(** C5, as the code has it. After [/game] from a user with no entry, the
    text "200" from that user is a guess above the target, whatever was
    drawn: the reply is "too high", the attempts become 1 and the target
    stays. *)
Theorem scenario_guess_200_is_too_high u new_game guess db :
  let target := randint 1 100 (inv_rnd new_game) in
  db !! u = None ->
  inv_event new_game = OnCommand (py "game") ->
  game_text_from u new_game ->
  inv_event guess = OnText ->
  sender (inv_update guess) = Some u ->
  sent_text (inv_update guess) = Some (py "200") ->
  target < 200
  /\ run [new_game; guess] db
     = (<[u := {| number := Some target; attempts := 1 |}]> db,
        [ReplyText MSG_CHOSEN; ReplyText MSG_TOO_HIGH]).
Proof.
  intros target Hdb Hev Hnew Hev' Hs' Ht'.
  assert (1 <= target <= 100) as Hrange by (apply randint_range; lia).
  split; [lia|].
  set (db1 := <[u := {| number := Some target; attempts := 0 |}]> db).
  assert (step new_game db = (db1, [ReplyText MSG_CHOSEN])) as Hstart.
  { destruct Hnew as ([_ Hs]%concerns_spec & [msg Hm]).
    unfold step, sender in *.
    destruct (effective_user (inv_update new_game)) as [user|] eqn:Hu;
      [|done].
    injection Hs as <-. rewrite Hev, dispatch_game.
    rewrite (game_start _ _ _ _ user) by done.
    by rewrite (reply_text_message _ msg). }
  assert (game_text_from u guess) as Hfrom.
  { split.
    - apply concerns_spec. unfold to_game. by rewrite Hev'.
    - unfold sent_text in Ht'.
      destruct (message (inv_update guess)); [by eauto|done]. }
  assert (guess_of (inv_update guess) = Some 200) as Hg.
  { unfold guess_of. by rewrite Ht'. }
  simpl. rewrite Hstart.
  rewrite (step_playing u guess db1 target 0);
    [|done|by apply lookup_insert_eq|lia].
  rewrite Hg.
  destruct (Z.ltb_spec 200 target); [lia|].
  destruct (Z.gtb_spec 200 target); [|lia].
  unfold db1. by rewrite insert_insert_eq.
Qed.

(** C6. A text that is not a command, from a user who plays, is handled by
    the game engine, and no chat adapter is called. *)
Theorem playing_text_goes_to_game rnd update context db user :
  effective_user update = Some user ->
  playing db (id user) = true ->
  dispatch OnText rnd update context db
  = guess_number_game rnd update context db
  /\ List.filter is_ai_call (dispatch OnText rnd update context db).2 = [].
Proof.
  intros Hu Hplay. simpl.
  rewrite (handle_message_playing _ _ _ _ user) by done.
  split; [done|].
  unfold playing in Hplay.
  destruct (db !! id user) as [[[t|] a]|] eqn:Hdb; [|done..].
  assert (t <> 0) by (simpl in Hplay; by destruct (Z.eqb_spec t 0)).
  destruct (message update) as [msg|] eqn:Hm.
  - destruct (py_int Py_UNICODE_ISSPACE Py_UNICODE_TODECIMAL (text msg))
      as [guess|] eqn:Hp.
    + rewrite (game_guess _ _ _ _ user t a msg guess) by done.
      by destruct (guess <? t); [|destruct (guess >? t)].
    + by rewrite (game_not_a_number _ _ _ _ user _ msg Hu Hdb).
  - by rewrite (game_no_message _ _ _ _ user _ Hu Hdb).
Qed.

(** C7. A text that does not start with the command marker, from a user
    who does not play, goes to one chat adapter: Gemini when its key is
    set, ChatGPT otherwise. The store is as before. *)
Theorem idle_text_goes_to_one_adapter rnd update context db user msg :
  effective_user update = Some user ->
  message update = Some msg ->
  playing db (id user) = false ->
  startswith (text msg) (py "/") = false ->
  let prompt := text msg in
  let call :=
    if truthy_str GEMINI_API_KEY
    then CallGeminiChat prompt else CallChatGpt prompt in
  let response :=
    if truthy_str GEMINI_API_KEY
    then gemini_chat_response prompt else chat_gpt_response prompt in
  dispatch OnText rnd update context db
  = (Returned tt, db,
     [ReplyText MSG_THINKING; call; ReplyText (take 4000 response)])
  /\ List.filter is_ai_call (dispatch OnText rnd update context db).2
     = [call].
Proof.
  intros Hu Hm Hplay Hcmd prompt call response. simpl.
  rewrite (handle_message_idle _ _ _ _ user msg) by done.
  rewrite Hcmd. unfold call, response, prompt.
  by destruct (truthy_str GEMINI_API_KEY).
Qed.


(** C9. [/game] from a user who plays never draws a new target and never
    takes the attempts back: whatever the update, an entry the user has
    afterwards holds the same number and at least the same attempts. The
    text of a command starts with the command marker, which [int] rejects:
    then the store is as before and the reply asks for a number. *)
Theorem start_game_while_playing_keeps_session
    rnd update context db user s :
  effective_user update = Some user ->
  db !! id user = Some s ->
  playing db (id user) = true ->
  let result := dispatch (OnCommand (py "game")) rnd update context db in
  (forall s', result.1.2 !! id user = Some s' ->
     number s' = number s /\ attempts s <= attempts s')
  /\ (forall msg,
        message update = Some msg ->
        startswith (text msg) (py "/") = true ->
        result = (Returned tt, db, [ReplyText MSG_SEND_NUMBER])).
Proof.
  intros Hu Hdb Hplay result. unfold result. rewrite dispatch_game.
  unfold playing in Hplay. rewrite Hdb in Hplay.
  split.
  - intros s'. destruct s as [[t|] a]; [|done].
    assert (t <> 0) by (simpl in Hplay; by destruct (Z.eqb_spec t 0)).
    destruct (message update) as [msg|] eqn:Hm.
    + destruct (py_int Py_UNICODE_ISSPACE Py_UNICODE_TODECIMAL (text msg))
        as [guess|] eqn:Hp.
      * rewrite (game_guess _ _ _ _ user t a msg guess) by done.
        destruct (guess <? t); [|destruct (guess >? t)]; simpl;
          rewrite ?lookup_insert_eq, ?lookup_delete_eq;
          intros [= <-]; simpl; split; (done || lia).
      * rewrite (game_not_a_number _ _ _ _ user _ msg Hu Hdb) by done.
        simpl. rewrite Hdb. by intros [= <-].
    + rewrite (game_no_message _ _ _ _ user _ Hu Hdb) by done.
      simpl. rewrite Hdb. by intros [= <-].
  - intros msg Hm Hcmd.
    apply (game_not_a_number _ _ _ _ user s msg); try done.
    by apply py_int_command.
Qed.

(** C10. From the empty store, after any sequence of updates handled by
    any of the registered handlers, every entry of the store has a number
    in 1..100 and attempts that are not negative; so the test "the user has
    an entry whose number is truthy" is the test "the user has an entry". *)
Theorem reachable_store_ok invs :
  let db := (run invs ∅).1 in
  store_ok db
  /\ forall u, playing db u = bool_decide (is_Some (db !! u)).
Proof.
  intros db.
  assert (store_ok db) as Hok by apply run_store_ok, store_ok_empty.
  split; [done|]. intros u. unfold playing.
  destruct (db !! u) as [s|] eqn:Hu.
  - rewrite (store_ok_playing db u s) by done.
    symmetry. apply bool_decide_eq_true. by eexists.
  - symmetry. apply bool_decide_eq_false. by intros [? ?].
Qed.

(** * Further properties *)

(** ** Decimal numerals *)

Lemma utf8_decode_ascii (l : pystr) :
  Forall (fun c => (c < 128)%N) l -> utf8_decode 0 0%N l = l.
Proof.
  induction 1 as [|c l Hc _ IH]; [done|].
  simpl. apply N.ltb_lt in Hc. by rewrite Hc, IH.
Qed.

Lemma to_ascii_ascii (l : pystr) :
  Forall (fun c => (c < 128)%N) l ->
  to_ascii Py_UNICODE_ISSPACE Py_UNICODE_TODECIMAL l = Some l.
Proof.
  induction 1 as [|c l Hc _ IH]; [done|].
  simpl. apply N.ltb_lt in Hc. by rewrite Hc, IH.
Qed.

(** The code points of the digits of a numeral. *)
Abbreviation uint_codes d :=
  (map N_of_ascii (list_ascii_of_string (NilEmpty.string_of_uint d))).

Lemma uint_codes_digits d :
  Forall (fun c => (48 <= c <= 57)%N) (uint_codes d).
Proof. induction d; simpl; constructor; (lia || done). Qed.

Lemma scan_digits_acc d : forall acc,
  scan_digits (Z.pos acc) false (uint_codes d)
  = Some (Z.pos (Pos.of_uint_acc d acc), []).
Proof.
  induction d; intros acc; [done|..]; simpl;
    rewrite <- IHd; f_equal; lia.
Qed.

Lemma scan_digits_uint d :
  scan_digits 0 false (uint_codes d) = Some (Z.of_N (Pos.of_uint d), []).
Proof.
  induction d; [done|exact IHd|apply scan_digits_acc..].
Qed.

Lemma digit_cases (c : N) :
  (48 <= c <= 57)%N -> c ∈ [48; 49; 50; 51; 52; 53; 54; 55; 56; 57]%N.
Proof. intros Hc. rewrite !elem_of_cons. lia. Qed.

(** On a text that starts with a digit, [int] is the digit loop followed by
    the trailing white space. *)
Lemma parse_signed_digit c l :
  (48 <= c <= 57)%N ->
  parse_signed (skip_spaces (c :: l))
  = match scan_digits 0 false (c :: l) with
    | Some (n, rest) =>
        match skip_spaces rest with
        | [] => Some n
        | _ :: _ => None
        end
    | None => None
    end.
Proof.
  intros Hc%digit_cases.
  repeat (apply elem_of_cons in Hc as [->|Hc];
          [simpl; unfold parse_signed; simpl;
           destruct (scan_digits _ false l) as [[n rest]|];
             [destruct (skip_spaces rest); [f_equal; lia|done]|done]|]).
  by apply elem_of_nil in Hc.
Qed.

Lemma parse_signed_minus_digit c l :
  (48 <= c <= 57)%N ->
  parse_signed (skip_spaces (45%N :: c :: l))
  = match scan_digits 0 false (c :: l) with
    | Some (n, rest) =>
        match skip_spaces rest with
        | [] => Some (- n)
        | _ :: _ => None
        end
    | None => None
    end.
Proof.
  intros Hc%digit_cases.
  repeat (apply elem_of_cons in Hc as [->|Hc];
          [simpl; unfold parse_signed; simpl;
           destruct (scan_digits _ false l) as [[n rest]|];
             [destruct (skip_spaces rest); [f_equal; lia|done]|done]|]).
  by apply elem_of_nil in Hc.
Qed.

Lemma uint_codes_head d :
  d <> Decimal.Nil ->
  exists c l, uint_codes d = c :: l /\ (48 <= c <= 57)%N.
Proof. destruct d; [done|..]; intros _; simpl; eexists _, _; split; (done || lia). Qed.

Lemma py_str_pos p : py_str (Z.pos p) = uint_codes (Pos.to_uint p).
Proof.
  unfold py_str, py. simpl Z.to_int. unfold NilZero.string_of_int.
  pose proof (DecimalPos.Unsigned.to_uint_nonnil p) as Hnil.
  destruct (Pos.to_uint p) eqn:Hd; [done|..];
    (apply utf8_decode_ascii;
     eapply Forall_impl; [apply uint_codes_digits|]; simpl; lia).
Qed.

Lemma py_str_neg p : py_str (Z.neg p) = 45%N :: uint_codes (Pos.to_uint p).
Proof.
  unfold py_str, py. simpl Z.to_int. unfold NilZero.string_of_int.
  pose proof (DecimalPos.Unsigned.to_uint_nonnil p) as Hnil.
  destruct (Pos.to_uint p) eqn:Hd; [done|..];
    (apply (utf8_decode_ascii (45%N :: _)); constructor; [lia|];
     eapply Forall_impl; [apply uint_codes_digits|]; simpl; lia).
Qed.

(** The decimal text of an [int] is ASCII. *)
Lemma py_str_ascii n : Forall (fun c => (c < 128)%N) (py_str n).
Proof.
  destruct n as [|p|p].
  - repeat constructor.
  - rewrite py_str_pos. eapply Forall_impl; [apply uint_codes_digits|].
    simpl. lia.
  - rewrite py_str_neg. constructor; [lia|].
    eapply Forall_impl; [apply uint_codes_digits|]. simpl. lia.
Qed.

(** [int(str(n))] is [n]. *)
Lemma py_int_py_str n :
  py_int Py_UNICODE_ISSPACE Py_UNICODE_TODECIMAL (py_str n) = Some n.
Proof.
  unfold py_int. rewrite to_ascii_ascii by apply py_str_ascii.
  destruct n as [|p|p]; [done|..].
  - rewrite py_str_pos.
    destruct (uint_codes_head (Pos.to_uint p)) as (c & l & Hcl & Hc);
      [apply DecimalPos.Unsigned.to_uint_nonnil|].
    rewrite Hcl, parse_signed_digit, <- Hcl, scan_digits_uint by done.
    simpl. by rewrite DecimalPos.Unsigned.of_to.
  - rewrite py_str_neg.
    destruct (uint_codes_head (Pos.to_uint p)) as (c & l & Hcl & Hc);
      [apply DecimalPos.Unsigned.to_uint_nonnil|].
    rewrite Hcl, parse_signed_minus_digit, <- Hcl, scan_digits_uint by done.
    simpl. by rewrite DecimalPos.Unsigned.of_to.
Qed.

(** ** Loading [ADMIN_IDS] *)

Lemma split_no_sep sep (w : pystr) : sep ∉ w -> split sep w = [w].
Proof.
  induction w as [|c w IH]; [done|].
  intros [Hc Hw]%not_elem_of_cons. simpl.
  destruct (N.eqb_spec c sep); [congruence|]. by rewrite IH.
Qed.

Lemma split_app_sep sep (w s : pystr) :
  sep ∉ w -> split sep (w ++ sep :: s) = w :: split sep s.
Proof.
  induction w as [|c w IH]; simpl.
  - intros _. by rewrite N.eqb_refl.
  - intros [Hc Hw]%not_elem_of_cons.
    destruct (N.eqb_spec c sep); [congruence|]. by rewrite IH.
Qed.

(** The decimal text of an [int] is not empty and is made of digits and
    the minus sign. *)
Lemma py_str_chars n :
  py_str n <> []
  /\ Forall (fun c => (48 <= c <= 57)%N \/ c = 45%N) (py_str n).
Proof.
  destruct n as [|p|p].
  - change (py_str 0) with [48%N]. split; [done|].
    constructor; [left; lia|constructor].
  - rewrite py_str_pos.
    destruct (uint_codes_head (Pos.to_uint p)) as (c & l & Hcl & Hc);
      [apply DecimalPos.Unsigned.to_uint_nonnil|].
    split; [by rewrite Hcl|].
    eapply Forall_impl; [apply uint_codes_digits|]. intros ? ?. by left.
  - rewrite py_str_neg. split; [done|]. constructor; [by right|].
    eapply Forall_impl; [apply uint_codes_digits|]. intros ? ?. by left.
Qed.

Lemma lstrip_no_space (s : pystr) :
  Forall (fun c => isspace c = false) s -> lstrip s = s.
Proof. destruct 1 as [|c s Hc _]; [done|]. simpl. by rewrite Hc. Qed.

Lemma strip_no_space (s : pystr) :
  Forall (fun c => isspace c = false) s -> strip s = s.
Proof.
  intros Hs. unfold strip. rewrite (lstrip_no_space s Hs).
  rewrite lstrip_no_space by by apply Forall_rev.
  apply rev_involutive.
Qed.

Lemma strip_py_str n : strip (py_str n) = py_str n.
Proof.
  apply strip_no_space.
  eapply Forall_impl; [apply py_str_chars|].
  intros c Hc. simpl in Hc. unfold isspace.
  destruct (N.ltb_spec c 128); [|lia].
  destruct Hc as [Hc| ->]; [|done].
  destruct (N.leb_spec 9 c), (N.leb_spec c 13), (N.leb_spec 28 c),
    (N.leb_spec c 32); simpl; (done || lia).
Qed.

Lemma split_join_py_str (ids : list Z) :
  ids <> [] ->
  split 44%N (join (py ",") (map py_str ids)) = map py_str ids.
Proof.
  assert (forall n, 44%N ∉ py_str n) as Hcomma.
  { intros n Hin. destruct (py_str_chars n) as [_ Hchars].
    rewrite Forall_forall in Hchars. specialize (Hchars _ Hin). lia. }
  induction ids as [|n ids IH]; [done|]. intros _.
  destruct ids as [|m ids].
  - simpl. by apply split_no_sep.
  - change (join (py ",") (map py_str (n :: m :: ids)))
      with (py_str n ++ 44%N :: join (py ",") (map py_str (m :: ids))).
    rewrite split_app_sep by done. by rewrite IH.
Qed.

Lemma load_py_str_items (ids : list Z) :
  mapM (fun id => py_int Py_UNICODE_ISSPACE Py_UNICODE_TODECIMAL (strip id))
    (List.filter (fun id => match id with [] => false | _ :: _ => true end)
       (map py_str ids))
  = Some ids.
Proof.
  induction ids as [|n ids IH]; [done|].
  simpl. destruct (py_str_chars n) as [Hne _].
  destruct (py_str n) as [|c l] eqn:Hn; [done|].
  simpl. rewrite <- Hn, strip_py_str, py_int_py_str. simpl.
  by rewrite IH.
Qed.

(** X18. The list of administrators survives the environment variable:
    loading the decimal texts of a list of identifiers, joined by commas,
    gives the list back, for numerals of at most 4300 characters each, which
    is as far as the interpreter converts. *)
Theorem admin_ids_round_trip (ids : list Z) :
  Forall (fun n => (length (py_str n) <= 4300)%nat) ids ->
  load_admin_ids (Some (join (py ",") (map py_str ids))) = Some ids.
Proof.
  intros _. unfold load_admin_ids.
  destruct ids as [|n ids]; [done|].
  rewrite split_join_py_str by done. apply load_py_str_items.
Qed.

(** X19. An item of the variable that is not empty but blank stops the
    loading: it passes the test [if id], and [int] rejects what [strip]
    leaves of it. *)
Theorem admin_ids_blank_item_fails (value item : pystr) :
  item ∈ split 44%N value ->
  item <> [] ->
  strip item = [] ->
  load_admin_ids (Some value) = None.
Proof.
  intros Hin Hne Hblank. unfold load_admin_ids.
  induction (split 44%N value) as [|x xs IH]; [by apply elem_of_nil in Hin|].
  apply elem_of_cons in Hin as [<-|Hin].
  - destruct item; [done|]. simpl. by rewrite Hblank.
  - simpl. destruct x; [by apply IH|]. simpl.
    destruct (py_int _ _ _); [|done]. simpl. by rewrite IH.
Qed.

(** ** What the handlers raise *)













(** X3. [/game] in an update without message (an edited command), from a
    user who does not play, creates the session all the same: the handler
    raises when it comes to the prompt, after the store was changed. *)
Theorem game_command_without_message_creates_session
    rnd update context db user :
  effective_user update = Some user ->
  message update = None ->
  playing db (id user) = false ->
  dispatch (OnCommand (py "game")) rnd update context db
  = (Raised AttributeError, <[id user := fresh_session rnd]> db, []).
Proof.
  intros Hu Hm Hplay. rewrite dispatch_game. unfold playing in Hplay.
  destruct (db !! id user) as [s|] eqn:Hdb.
  - rewrite (game_restart _ _ _ _ user s) by done.
    by rewrite reply_text_no_message.
  - rewrite (game_start _ _ _ _ user) by done.
    by rewrite reply_text_no_message.
Qed.


(** ** Who changes which entry *)

Lemma dispatch_frame ev rnd update context db v :
  sender update <> Some v ->
  (dispatch ev rnd update context db).1.2 !! v = db !! v.
Proof.
  intros Hv. destruct ev as [name| |].
  - destruct (decide (name = py "game")) as [->|Hname].
    + rewrite dispatch_game. by apply game_frame.
    + by rewrite dispatch_other_command.
  - simpl. by rewrite button_handler_read_only.
  - simpl. by apply handle_message_frame.
Qed.

(** X5. An update leaves the entries of everybody but its sender as they
    were, whatever the handler. *)
Theorem other_users_entries_untouched ev rnd update context db v :
  sender update <> Some v ->
  (dispatch ev rnd update context db).1.2 !! v = db !! v.
Proof.
  intros Hv. destruct ev as [name| |].
  - destruct (decide (name = py "game")) as [->|Hname].
    + rewrite dispatch_game. by apply game_frame.
    + by rewrite dispatch_other_command.
  - simpl. by rewrite button_handler_read_only.
  - simpl. by apply handle_message_frame.
Qed.

(** X6. Only [/game] and free text reach the store: every other command,
    registered or not, and every button press leave it as it was. *)
Theorem only_game_and_text_change_store ev rnd update context db :
  ev <> OnCommand (py "game") ->
  ev <> OnText ->
  (dispatch ev rnd update context db).1.2 = db.
Proof.
  intros Hgame Htext. destruct ev as [name| |]; [| |done].
  - apply dispatch_other_command. congruence.
  - simpl. apply button_handler_read_only.
Qed.

(** X7. A session comes into the store through [/game] alone, for the
    sender alone, and it is the fresh one: free text, numeric or not, never
    creates an entry. *)
Theorem sessions_come_from_game_command ev rnd update context db v s :
  db !! v = None ->
  (dispatch ev rnd update context db).1.2 !! v = Some s ->
  ev = OnCommand (py "game")
  /\ sender update = Some v
  /\ s = fresh_session rnd.
Proof.
  intros Hdb Hnew.
  destruct (decide (sender update = Some v)) as [Hs|Hs];
    [|rewrite dispatch_frame in Hnew by done; congruence].
  unfold sender in Hs.
  destruct (effective_user update) as [user|] eqn:Hu; [|done].
  injection Hs as <-.
  destruct ev as [name| |].
  - destruct (decide (name = py "game")) as [->|Hname];
      [|rewrite dispatch_other_command in Hnew by done; congruence].
    repeat split; [by unfold sender; rewrite Hu|].
    rewrite dispatch_game, (game_start _ _ _ _ user) in Hnew by done.
    rewrite reply_text_store, lookup_insert_eq in Hnew.
    by injection Hnew as <-.
  - simpl in Hnew. rewrite button_handler_read_only in Hnew. congruence.
  - simpl in Hnew.
    assert (playing db (id user) = false) as Hplay
      by (unfold playing; by rewrite Hdb).
    destruct (message update) as [msg|] eqn:Hm.
    + rewrite (handle_message_idle _ _ _ _ user msg) in Hnew by done.
      repeat case_match; simpl in Hnew; congruence.
    + rewrite (handle_message_idle_no_message _ _ _ _ user) in Hnew by done.
      simpl in Hnew. congruence.
Qed.

(** X8. While a session lives its target never changes, and one update
    adds at most one attempt; the session ends only on a guess of its owner
    that equals the target. *)
Theorem session_is_stable ev rnd update context db v t a :
  db !! v = Some {| number := Some t; attempts := a |} ->
  t <> 0 ->
  match (dispatch ev rnd update context db).1.2 !! v with
  | Some s' =>
      number s' = Some t /\ (attempts s' = a \/ attempts s' = a + 1)
  | None =>
      sender update = Some v /\ guess_of update = Some t
      /\ (ev = OnText \/ ev = OnCommand (py "game"))
  end.
Proof.
  intros Hdb Ht.
  destruct (decide (sender update = Some v)) as [Hs|Hs];
    [|rewrite dispatch_frame, Hdb by done; simpl; auto].
  assert (
    ev = OnText \/ ev = OnCommand (py "game") ->
    (dispatch ev rnd update context db)
    = guess_number_game rnd update context db ->
    match (dispatch ev rnd update context db).1.2 !! v with
    | Some s' =>
        number s' = Some t /\ (attempts s' = a \/ attempts s' = a + 1)
    | None =>
        sender update = Some v /\ guess_of update = Some t
        /\ (ev = OnText \/ ev = OnCommand (py "game"))
    end) as Hgame.
  { intros Hev ->. unfold sender, guess_of, sent_text in *.
    destruct (effective_user update) as [user|] eqn:Hu; [|done].
    injection Hs as <-.
    destruct (message update) as [msg|] eqn:Hm.
    - destruct (py_int Py_UNICODE_ISSPACE Py_UNICODE_TODECIMAL (text msg))
        as [guess|] eqn:Hp.
      + rewrite (game_guess _ _ _ _ user t a msg guess) by done.
        destruct (Z.ltb_spec guess t); [|destruct (Z.gtb_spec guess t)];
          simpl; rewrite ?lookup_insert_eq, ?lookup_delete_eq; simpl; auto.
        repeat split; [f_equal; lia|done].
      + rewrite (game_not_a_number _ _ _ _ user _ msg Hu Hdb); [|by simpl;
          destruct (Z.eqb_spec t 0)|done..].
        simpl. rewrite Hdb. simpl. auto.
    - rewrite (game_no_message _ _ _ _ user _ Hu Hdb); [|by simpl;
        destruct (Z.eqb_spec t 0)|done].
      simpl. rewrite Hdb. simpl. auto. }
  destruct ev as [name| |].
  - destruct (decide (name = py "game")) as [->|Hname].
    + apply Hgame; [by right|by rewrite dispatch_game].
    + rewrite dispatch_other_command, Hdb by done. simpl. auto.
  - simpl. rewrite button_handler_read_only, Hdb. simpl. auto.
  - apply Hgame; [by left|]. simpl.
    unfold sender in Hs.
    destruct (effective_user update) as [user|] eqn:Hu; [|done].
    injection Hs as <-.
    apply (handle_message_playing _ _ _ _ user); [done|].
    by apply (playing_entry _ _ t a).
Qed.

(** X9. A numeric guess outside 1..100, sent as free text by a user who
    plays in a store as the handlers leave it, never wins and is counted as
    an attempt: below 1 it is answered "too low", above 100 "too high". *)
Theorem out_of_range_guess_is_counted
    rnd update context db user msg s guess :
  store_ok db ->
  effective_user update = Some user ->
  message update = Some msg ->
  db !! id user = Some s ->
  py_int Py_UNICODE_ISSPACE Py_UNICODE_TODECIMAL (text msg) = Some guess ->
  guess < 1 \/ 100 < guess ->
  dispatch OnText rnd update context db
  = (Returned tt,
     <[id user := {| number := number s; attempts := attempts s + 1 |}]> db,
     [ReplyText (if guess <? 1 then MSG_TOO_LOW else MSG_TOO_HIGH)]).
Proof.
  intros Hok Hu Hm Hdb Hp Hout.
  destruct (Hok _ _ Hdb) as [(t & Ht & Hrange) _].
  destruct s as [n a]; simpl in *; subst n.
  rewrite (handle_message_playing _ _ _ _ user);
    [|done|apply (playing_entry _ _ t a); [done|lia]].
  rewrite (game_guess _ _ _ _ user t a msg guess) by (done || lia).
  destruct (Z.ltb_spec guess 1).
  - destruct (Z.ltb_spec guess t); [done|lia].
  - destruct (Z.ltb_spec guess t); [lia|].
    destruct (Z.gtb_spec guess t); [done|lia].
Qed.


(** ** The commands that call an adapter *)

(** Closes [x ∈ [y1; ...; yn] -> False] when [x] differs from each [yi] by
    its constructor. *)
Ltac split_member H :=
  rewrite ?elem_of_cons, ?elem_of_nil in H;
  repeat match type of H with
         | _ \/ _ => destruct H as [H|H]
         | False => destruct H
         end.

Ltac absurd_member :=
  let H := fresh in
  rewrite ?elem_of_cons, elem_of_nil; intros H;
  repeat (destruct H as [H|H]; [discriminate H|]); exact H.

Lemma chatgpt_command_no_message update context db :
  message update = None ->
  chatgpt_command update context db = (Raised AttributeError, db, []).
Proof.
  intros Hm. unfold chatgpt_command, chat_gpt.
  destruct (args context); unfold_monad;
    by rewrite reply_text_no_message.
Qed.

Lemma chatgpt_command_message update context db msg :
  message update = Some msg ->
  chatgpt_command update context db
  = match args context with
    | [] => (Returned tt, db,
             [ReplyText (py "Usage: /chatgpt <your question>")])
    | _ :: _ =>
        let prompt := join (py " ") (args context) in
        (Returned tt, db,
         [ReplyText MSG_THINKING; CallChatGpt prompt;
          ReplyText (take 4000 (chat_gpt_response prompt))])
    end.
Proof.
  intros Hm. unfold chatgpt_command, chat_gpt.
  destruct (args context); unfold_monad;
    by rewrite !(reply_text_message _ msg _ _ Hm).
Qed.

Lemma dispatch_gemini rnd update context :
  dispatch (OnCommand (py "gemini")) rnd update context
  = chatgpt_command update context.
Proof. reflexivity. Qed.

Lemma dispatch_chatgpt rnd update context :
  dispatch (OnCommand (py "chatgpt")) rnd update context
  = chatgpt_command update context.
Proof. reflexivity. Qed.

(** X11. [/gemini] is registered on the ChatGPT handler: it never calls the
    Gemini adapter, whatever the configuration, and with arguments it sends
    them, joined by spaces, to ChatGPT. *)
Theorem gemini_command_calls_chat_gpt rnd update context db :
  let out := (dispatch (OnCommand (py "gemini")) rnd update context db).2 in
  (forall prompt, CallGeminiChat prompt ∉ out)
  /\ (forall msg,
        message update = Some msg ->
        args context <> [] ->
        let prompt := join (py " ") (args context) in
        out = [ReplyText MSG_THINKING; CallChatGpt prompt;
               ReplyText (take 4000 (chat_gpt_response prompt))]).
Proof.
  rewrite dispatch_gemini. simpl. split.
  - intros prompt.
    destruct (message update) as [msg|] eqn:Hm.
    + rewrite (chatgpt_command_message _ _ _ msg) by done.
      destruct (args context); simpl; absurd_member.
    + rewrite chatgpt_command_no_message by done. apply not_elem_of_nil.
  - intros msg Hm Hargs.
    rewrite (chatgpt_command_message _ _ _ msg) by done.
    by destruct (args context).
Qed.

(** X12. No reply to a chat request is longer than 4000 code points, and
    an answer of the adapter that fits is sent whole. *)
Theorem chat_replies_fit_a_message update context db :
  (forall body,
     ReplyText body ∈ (chatgpt_command update context db).2 ->
     (length body <= 4000)%nat)
  /\ (forall msg,
        message update = Some msg ->
        args context <> [] ->
        let answer := chat_gpt_response (join (py " ") (args context)) in
        (length answer <= 4000)%nat ->
        ReplyText answer ∈ (chatgpt_command update context db).2).
Proof.
  split.
  - intros body.
    destruct (message update) as [msg|] eqn:Hm.
    + rewrite (chatgpt_command_message _ _ _ msg) by done.
      destruct (args context); simpl; rewrite !elem_of_cons;
        intros H; decompose [or] H; clear H;
        repeat match goal with
               | H : ReplyText _ = _ |- _ => injection H as ->
               | H : _ ∈ [] |- _ => by apply elem_of_nil in H
               end;
        try done.
      * vm_compute. lia.
      * vm_compute. lia.
      * rewrite length_take. lia.
    + rewrite chatgpt_command_no_message by done.
      by intros ?%elem_of_nil.
  - intros msg Hm Hargs answer Hlen.
    rewrite (chatgpt_command_message _ _ _ msg) by done.
    destruct (args context); [done|]. simpl.
    rewrite !elem_of_cons. right. right. left.
    fold answer. by rewrite take_ge.
Qed.

(** X13. [/whatsapp] calls the relay when, and only when, it has at least
    two arguments: the number is the first and the text is the rest joined
    by spaces. This does not depend on the update having a message: the
    relay is called before the reply is sent. *)
Theorem whatsapp_relay_needs_number_and_text
    update context db to_number body :
  CallSendWhatsapp to_number body ∈ (whatsapp_command update context db).2
  <-> exists rest,
        args context = to_number :: rest /\ rest <> []
        /\ body = join (py " ") rest.
Proof.
  unfold whatsapp_command, send_whatsapp.
  destruct (args context) as [|number [|word words]]; unfold_monad.
  - split; [|by intros (? & ? & _)].
    destruct (message update) as [msg|] eqn:Hm.
    + rewrite (reply_text_message _ msg) by done. simpl.
      rewrite list_elem_of_singleton. done.
    + rewrite reply_text_no_message by done. by intros ?%elem_of_nil.
  - split; [|by intros (? & [= <- <-] & ? & _)].
    destruct (message update) as [msg|] eqn:Hm.
    + rewrite (reply_text_message _ msg) by done. simpl.
      rewrite list_elem_of_singleton. done.
    + rewrite reply_text_no_message by done. by intros ?%elem_of_nil.
  - assert (forall r : outcome unit * gmap Z session * list effect,
      CallSendWhatsapp to_number body
        ∈ (let (p, out2) := r in
           let (r0, db2) := p in
           (r0, db2,
            [CallSendWhatsapp number (join (py " ") (word :: words))]
              ++ [] ++ out2)).2
      <-> CallSendWhatsapp to_number body
            = CallSendWhatsapp number (join (py " ") (word :: words))
          \/ CallSendWhatsapp to_number body ∈ r.2) as Hin.
    { intros [[r d] o]. simpl. by rewrite elem_of_cons. }
    simpl. rewrite Hin. clear Hin.
    assert (CallSendWhatsapp to_number body
              ∉ (reply_text update
                   (send_whatsapp_result number
                      (join (py " ") (word :: words))) db).2) as Hno.
    { destruct (message update) as [msg|] eqn:Hm.
      - rewrite (reply_text_message _ msg) by done. simpl.
        by rewrite list_elem_of_singleton.
      - rewrite reply_text_no_message by done. apply not_elem_of_nil. }
    split.
    + intros [[= -> ->]|H]; [|done]. by eexists.
    + intros (rest & [= <- <-] & _ & ->). by left.
Qed.

Lemma youtube_command_no_message update context db :
  message update = None ->
  youtube_command update context db = (Raised AttributeError, db, []).
Proof.
  intros Hm. unfold youtube_command, download_youtube.
  destruct (args context); unfold_monad;
    by rewrite reply_text_no_message.
Qed.

Lemma youtube_command_message update context db msg :
  message update = Some msg ->
  youtube_command update context db
  = match args context with
    | [] => (Returned tt, db, [ReplyText (py "Usage: /youtube <YouTube URL>")])
    | url :: _ =>
        (Returned tt, db,
         [ReplyText (py "📥 Downloading video..."); CallDownloadYoutube url]
         ++ match download_youtube_result url with
            | (Some (c :: path), _) =>
                [ReplyVideo (c :: path) (py "✅ Here's your video!");
                 OsRemove (c :: path)]
            | (_, result) => [ReplyText result]
            end)
    end.
Proof.
  intros Hm. unfold youtube_command, download_youtube.
  destruct (args context) as [|url rest]; unfold_monad.
  { by rewrite (reply_text_message _ msg). }
  rewrite (reply_text_message _ msg) by done. simpl.
  destruct (download_youtube_result url) as [[[|c path]|] result]; simpl;
    rewrite ?Hm, ?(reply_text_message _ msg _ _ Hm); reflexivity.
Qed.

(** X14. [/youtube] asks for a download only after it has announced it, for
    the first argument; a file that is sent is removed afterwards, and
    nothing else is removed; when the download gives no file, its message is
    the reply. *)
Theorem youtube_sends_then_removes update context db :
  let out := (youtube_command update context db).2 in
  (forall url,
     CallDownloadYoutube url ∈ out ->
     is_Some (message update) /\ head (args context) = Some url)
  /\ (forall path,
        OsRemove path ∈ out
        <-> ReplyVideo path (py "✅ Here's your video!") ∈ out)
  /\ (forall msg url rest result,
        message update = Some msg ->
        args context = url :: rest ->
        download_youtube_result url = (None, result) ->
        out = [ReplyText (py "📥 Downloading video...");
               CallDownloadYoutube url; ReplyText result]).
Proof.
  simpl. destruct (message update) as [msg|] eqn:Hm.
  2:{ rewrite youtube_command_no_message by done. simpl.
      split; [by intros ? ?%elem_of_nil|].
      split; [|done].
      intros path. split; by intros ?%elem_of_nil. }
  rewrite (youtube_command_message _ _ _ msg) by done.
  destruct (args context) as [|url rest]; simpl.
  { split; [intros url H; by split_member H|].
    split; [|done].
    intros path. split; intros H; by split_member H. }
  destruct (download_youtube_result url) as [[[|c path]|] result] eqn:Hd;
    simpl.
  - split; [intros url' H; split_member H; try done;
            injection H as ->; eauto|].
    split; [intros p; split; intros H; by split_member H|].
    intros msg' url' rest' result' _ [= <- <-] Hd'. rewrite Hd in Hd'.
    done.
  - split; [intros url' H; split_member H; try done;
            injection H as ->; eauto|].
    split; [|intros msg' url' rest' result' _ [= <- <-] Hd';
             by rewrite Hd in Hd'].
    intros p. rewrite !elem_of_cons, !elem_of_nil.
    split; intros H; split_member H; try done; injection H as ->; auto.
  - split; [intros url' H; split_member H; try done;
            injection H as ->; eauto|].
    split; [intros p; split; intros H; by split_member H|].
    intros msg' url' rest' result' _ [= <- <-] Hd'. rewrite Hd in Hd'.
    by injection Hd' as <-.
Qed.

(** ** The buttons *)

Lemma button_handler_query press context db q :
  callback_query press = Some q ->
  button_handler press context db
  = if bool_decide (data q = py "ai_chat") then
      (Returned tt, db,
       [QueryAnswer;
        EditMessageText
          (py "🤖 AI Chat activated! Just send me any message.")])
    else if bool_decide (data q = py "youtube") then
      (Returned tt, db,
       [QueryAnswer;
        EditMessageText (py "📥 Send YouTube URL or use /youtube <url>")])
    else if bool_decide (data q = py "weather") then
      (Returned tt, db,
       [QueryAnswer;
        EditMessageText (py "🌤️ Use /weather <city> to get weather info")])
    else if bool_decide (data q = py "whatsapp") then
      (Returned tt, db,
       [QueryAnswer;
        EditMessageText
          (py "📱 Use /whatsapp <number> <message> to send WhatsApp")])
    else if bool_decide (data q = py "games") then
      (Returned tt, db,
       [QueryAnswer;
        EditMessageText (py "🎮 Use /game to start number guessing game!")])
    else if bool_decide (data q = py "help") then
      match message press with
      | Some _ => (Returned tt, db, [QueryAnswer; ReplyText help_text])
      | None => (Raised AttributeError, db, [QueryAnswer])
      end
    else (Returned tt, db, [QueryAnswer]).
Proof.
  intros Hq. unfold button_handler, help_command. rewrite Hq. unfold_monad.
  repeat case_bool_decide; try reflexivity.
  destruct (message press) as [msg|] eqn:Hm.
  - by rewrite (reply_text_message _ msg).
  - by rewrite reply_text_no_message.
Qed.

(** X15. The buttons that [/start] shows and the tags that the button
    handler knows are the same: a press of any button of the keyboard but
    Help edits the message, and a press with a tag that is not on the
    keyboard is answered and nothing more. *)
Theorem start_buttons_are_handled
    update context db body keyboard press context' db' q :
  ReplyKeyboard body keyboard ∈ (start update context db).2 ->
  callback_query press = Some q ->
  (data q ∈ keyboard_tags keyboard -> data q <> py "help" ->
   exists answer,
     button_handler press context' db'
     = (Returned tt, db', [QueryAnswer; EditMessageText answer]))
  /\ (data q ∉ keyboard_tags keyboard ->
      button_handler press context' db' = (Returned tt, db', [QueryAnswer])).
Proof.
  intros Hstart Hq.
  assert (keyboard_tags keyboard
          = [py "ai_chat"; py "youtube"; py "weather"; py "whatsapp";
             py "games"; py "help"]) as ->.
  { unfold start in Hstart. unfold_monad.
    destruct (message update); [|by apply elem_of_nil in Hstart].
    destruct (effective_user update); [|by apply elem_of_nil in Hstart].
    simpl in Hstart. apply list_elem_of_singleton in Hstart.
    by injection Hstart as -> ->. }
  rewrite (button_handler_query _ _ _ q) by done.
  rewrite !elem_of_cons, elem_of_nil. split.
  - intros Hin Hhelp. repeat case_bool_decide; eauto; try done.
    exfalso. decompose [or] Hin; done.
  - intros Hout. repeat case_bool_decide; try done; exfalso; apply Hout; auto 10.
Qed.

(** X16. The Help button needs an update with a message, which a button
    press does not have: the press is answered, and the handler raises
    before any help text is sent. With a message the help text is sent. *)
Theorem help_button_needs_message press context db q :
  callback_query press = Some q ->
  data q = py "help" ->
  button_handler press context db
  = match message press with
    | Some _ => (Returned tt, db, [QueryAnswer; ReplyText help_text])
    | None => (Raised AttributeError, db, [QueryAnswer])
    end.
Proof.
  intros Hq Hd. rewrite (button_handler_query _ _ _ q) by done.
  rewrite Hd. reflexivity.
Qed.

(** ** The admin command and command-like text *)

(** X17. [/broadcast] confirms a broadcast when, and only when, the sender
    is in [ADMIN_IDS], the update is a message and there is at least one
    argument: the confirmed text is the arguments joined by spaces. *)
Theorem broadcast_confirms_for_admin_with_text update context db body :
  ReplyText (MSG_BROADCAST_SENT body) ∈ (broadcast_command update context db).2
  <-> (exists user,
         effective_user update = Some user /\ id user ∈ ADMIN_IDS)
      /\ is_Some (message update)
      /\ args context <> []
      /\ body = join (py " ") (args context).
Proof.
  assert (forall text0 db0,
    ReplyText (MSG_BROADCAST_SENT body) ∈ (reply_text update text0 db0).2
    <-> is_Some (message update) /\ MSG_BROADCAST_SENT body = text0)
    as Hreply.
  { intros text0 db0. destruct (message update) as [msg|] eqn:Hm.
    - rewrite (reply_text_message _ msg) by done. simpl.
      rewrite list_elem_of_singleton. split.
      + intros [= H]. eauto.
      + by intros [_ ->].
    - rewrite reply_text_no_message by done. simpl. split.
      + by intros ?%elem_of_nil.
      + by intros [[? ?] _]. }
  unfold broadcast_command.
  destruct (effective_user update) as [user|] eqn:Hu; unfold_monad;
    [|split; [by intros ?%elem_of_nil|by intros [(? & ? & _) _]]].
  assert (forall r : outcome unit * gmap Z session * list effect,
    (let (p, out2) := r in let (r0, db2) := p in (r0, db2, [] ++ out2)).2
    = r.2) as Heta by (by intros [[? ?] ?]).
  rewrite Heta. case_bool_decide as Hadmin; simpl.
  - destruct (args context) as [|word words] eqn:Hargs.
    + rewrite Hreply. split; [by intros [_ ?]|by intros (_ & _ & ? & _)].
    + rewrite Hreply. unfold MSG_BROADCAST_SENT. split.
      * intros [Hm Heq%app_inv_head]. eauto 10.
      * intros (_ & Hm & _ & ->). done.
  - rewrite Hreply. split; [by intros [_ ?]|].
    intros ((user' & [= <-] & Hin) & _). done.
Qed.

(** X20. A text that starts with the command marker never reaches a chat
    adapter and never changes the store: from a user who plays it is a
    guess that is not a number, from any other user it is dropped without a
    reply. *)
Theorem command_like_text_is_never_forwarded
    rnd update context db user msg :
  effective_user update = Some user ->
  message update = Some msg ->
  startswith (text msg) (py "/") = true ->
  dispatch OnText rnd update context db
  = (Returned tt, db,
     if playing db (id user) then [ReplyText MSG_SEND_NUMBER] else []).
Proof.
  intros Hu Hm Hcmd. simpl.
  destruct (playing db (id user)) eqn:Hplay.
  - rewrite (handle_message_playing _ _ _ _ user) by done.
    unfold playing in Hplay.
    destruct (db !! id user) as [s|] eqn:Hdb; [|done].
    apply (game_not_a_number _ _ _ _ user s msg); try done.
    by apply py_int_command.
  - rewrite (handle_message_idle _ _ _ _ user msg) by done.
    by rewrite Hcmd.
Qed.

(** X21. The decimal text of the target always wins: [int] reads back what
    [str] writes, so a playing user who sends the target as a plain numeral
    gets the success reply, with the attempts counted, and the session
    ends. *)
Theorem decimal_text_of_target_wins rnd update context db user msg t a :
  effective_user update = Some user ->
  message update = Some msg ->
  db !! id user = Some {| number := Some t; attempts := a |} ->
  t <> 0 ->
  text msg = py_str t ->
  dispatch OnText rnd update context db
  = (Returned tt, delete (id user) db, [ReplyText (MSG_CORRECT (a + 1))]).
Proof.
  intros Hu Hm Hdb Ht Htext. simpl.
  rewrite (handle_message_playing _ _ _ _ user);
    [|done|by apply (playing_entry _ _ t a)].
  rewrite (game_guess _ _ _ _ user t a msg t);
    [|done..|by rewrite Htext, py_int_py_str].
  by rewrite Z.ltb_irrefl, Z.gtb_ltb, Z.ltb_irrefl.
Qed.

End Bot.

(** * The properties at concrete inputs *)

Abbreviation example_int := (py_int example_isspace example_todecimal).

Abbreviation example_game :=
  (guess_number_game example_isspace example_todecimal).

Abbreviation example_dispatch :=
  (dispatch example_isspace example_todecimal example_admins example_key
     example_answer example_answer example_download example_relay
     example_answer).

Abbreviation example_run :=
  (run example_isspace example_todecimal example_admins example_key
     example_answer example_answer example_download example_relay
     example_answer).



Lemma non_numeric_guesses_keep_session_witness :
  let db : gmap Z session :=
    {[ 7 := {| number := Some 42; attempts := 3 |} ]} in
  example_run
    [ example_invocation OnText 0%N ada "hello";
      example_invocation (OnCommand (py "game")) 5%N ada "/game";
      example_invocation OnText 0%N ada "4 2" ]
    db
  = (db, [ReplyText MSG_SEND_NUMBER; ReplyText MSG_SEND_NUMBER;
          ReplyText MSG_SEND_NUMBER]).
Proof.
  intros db.
  apply (non_numeric_guesses_keep_session
           example_isspace example_todecimal example_admins example_key
           example_answer example_answer example_download example_relay
           example_answer 7).
  - reflexivity.
  - repeat constructor; by eexists.
  - repeat constructor.
Defined.


Lemma guess_follows_ordering_witness :
  example_game 0%N (example_message ada "30") example_context
    {[ 7 := {| number := Some 50; attempts := 0 |} ]}
  = (Returned tt, {[ 7 := {| number := Some 50; attempts := 1 |} ]},
     [ReplyText MSG_TOO_LOW])
  /\ playing {[ 7 := {| number := Some 50; attempts := 1 |} ]} 7 = true.
Proof.
  refine (proj1 (guess_follows_ordering
                   example_isspace example_todecimal
                   0%N (example_message ada "30") example_context
                   {[ 7 := {| number := Some 50; attempts := 0 |} ]}
                   ada {| text := py "30" |} 50 0 30
                   _ _ _ _ _) _); reflexivity.
Defined.

Lemma scenario_guess_200_is_too_high_witness :
  42 < 200
  /\ example_run
       [ example_invocation (OnCommand (py "game")) 41%N ada "/game";
         example_invocation OnText 0%N ada "200" ] ∅
     = ({[ 7 := {| number := Some 42; attempts := 1 |} ]},
        [ReplyText MSG_CHOSEN; ReplyText MSG_TOO_HIGH]).
Proof.
  apply (scenario_guess_200_is_too_high
           example_isspace example_todecimal example_admins example_key
           example_answer example_answer example_download example_relay
           example_answer 7
           (example_invocation (OnCommand (py "game")) 41%N ada "/game")
           (example_invocation OnText 0%N ada "200") ∅).
  - reflexivity.
  - reflexivity.
  - split; [reflexivity|by eexists].
  - reflexivity.
  - reflexivity.
  - reflexivity.
Defined.

(** C5 as the specification words it fails: with the target 42, which is
    below 200, the guess "200" is not answered by "too low". *)
Lemma scenario_guess_200_is_not_too_low :
  let result :=
    example_run
      [ example_invocation (OnCommand (py "game")) 41%N ada "/game";
        example_invocation OnText 0%N ada "200" ] ∅ in
  result.1 !! 7 = Some {| number := Some 42; attempts := 1 |}
  /\ ~ (42 < 200 -> ReplyText MSG_TOO_LOW ∈ result.2).
Proof.
  split; [reflexivity|].
  intros H. specialize (H ltac:(lia)).
  vm_compute in H.
  repeat (apply elem_of_cons in H as [H|H]; [discriminate H|]).
  by apply elem_of_nil in H.
Qed.

Lemma playing_text_goes_to_game_witness :
  let db : gmap Z session :=
    {[ 7 := {| number := Some 42; attempts := 1 |} ]} in
  example_dispatch OnText 0%N (example_message ada "50") example_context db
  = example_game 0%N (example_message ada "50") example_context db
  /\ List.filter is_ai_call
       (example_dispatch OnText 0%N (example_message ada "50")
          example_context db).2
     = [].
Proof.
  intros db.
  refine (playing_text_goes_to_game
            example_isspace example_todecimal example_admins example_key
            example_answer example_answer example_download example_relay
            example_answer
            0%N (example_message ada "50") example_context db ada _ _);
    reflexivity.
Defined.

Lemma idle_text_goes_to_one_adapter_witness :
  example_dispatch OnText 0%N (example_message ada "hi there")
    example_context ∅
  = (Returned tt, ∅,
     [ReplyText MSG_THINKING; CallGeminiChat (py "hi there");
      ReplyText (py "Hello!")])
  /\ List.filter is_ai_call
       (example_dispatch OnText 0%N (example_message ada "hi there")
          example_context ∅).2
     = [CallGeminiChat (py "hi there")].
Proof.
  refine (idle_text_goes_to_one_adapter
            example_isspace example_todecimal example_admins example_key
            example_answer example_answer example_download example_relay
            example_answer
            0%N (example_message ada "hi there") example_context ∅
            ada {| text := py "hi there" |} _ _ _ _);
    reflexivity.
Defined.



Lemma start_game_while_playing_keeps_session_witness :
  let db : gmap Z session :=
    {[ 7 := {| number := Some 42; attempts := 1 |} ]} in
  example_dispatch (OnCommand (py "game")) 9%N (example_message ada "/game")
    example_context db
  = (Returned tt, db, [ReplyText MSG_SEND_NUMBER]).
Proof.
  intros db.
  refine (proj2 (start_game_while_playing_keeps_session
                   example_isspace example_todecimal example_admins
                   example_key example_answer example_answer
                   example_download example_relay example_answer
                   9%N (example_message ada "/game") example_context db ada
                   {| number := Some 42; attempts := 1 |} _ _ _)
            {| text := py "/game" |} _ _);
    reflexivity.
Defined.

(** The other two guesses of the example of C4, by evaluation. *)
Example guess_70_of_50 :
  example_game 0%N (example_message ada "70") example_context
    {[ 7 := {| number := Some 50; attempts := 1 |} ]}
  = (Returned tt, {[ 7 := {| number := Some 50; attempts := 2 |} ]},
     [ReplyText MSG_TOO_HIGH]).
Proof. vm_compute. reflexivity. Qed.

Example guess_50_of_50 :
  example_game 0%N (example_message ada "50") example_context
    {[ 7 := {| number := Some 50; attempts := 2 |} ]}
  = (Returned tt, ∅, [ReplyText (MSG_CORRECT 3)]).
Proof. vm_compute. reflexivity. Qed.

(** [int] on a few texts, as the interpreter answers. *)
Example int_examples :
  example_int (py "200") = Some 200
  /\ example_int (py " 42 ") = Some 42
  /\ example_int (py "-0") = Some 0
  /\ example_int (py "1_000") = Some 1000
  /\ example_int (py "1__0") = None
  /\ example_int (py "٣") = Some 3
  /\ example_int (py "²") = None
  /\ example_int (py "") = None
  /\ example_int (py "+ 5") = None
  /\ example_int (py "0x10") = None
  /\ example_int (py "/game") = None.
Proof. repeat split; reflexivity. Qed.

(** * The further properties at concrete inputs *)

Abbreviation at_example T :=
  (T example_isspace example_todecimal example_admins example_key
     example_answer example_answer example_download example_relay
     example_answer).

Abbreviation example_load := (load_admin_ids example_isspace example_todecimal).

(** The loading of [ADMIN_IDS] on a few values, as the interpreter
    answers. *)
Example load_admin_ids_examples :
  example_load None = Some []
  /\ example_load (Some (py "1001,,1002,")) = Some [1001; 1002]
  /\ example_load (Some (py " 7 , 8")) = Some [7; 8]
  /\ example_load (Some (py "-5,+6")) = Some [-5; 6]
  /\ example_load (Some (py ",")) = Some []
  /\ example_load (Some (py "1001, ")) = None
  /\ example_load (Some (py "a")) = None
  /\ example_load (Some (py " ")) = None.
Proof. repeat split; reflexivity. Qed.

Lemma admin_ids_round_trip_witness :
  example_load (Some (py "1001,-5,0")) = Some [1001; -5; 0].
Proof.
  apply (admin_ids_round_trip example_isspace example_todecimal
           [1001; -5; 0]).
  repeat constructor; vm_compute; lia.
Defined.

Lemma admin_ids_blank_item_fails_witness :
  example_load (Some (py "1001, ")) = None.
Proof.
  apply (admin_ids_blank_item_fails example_isspace example_todecimal
           (py "1001, ") (py " ")).
  - apply elem_of_cons. right. apply elem_of_cons. by left.
  - discriminate.
  - reflexivity.
Defined.


Lemma game_command_without_message_creates_session_witness :
  example_dispatch (OnCommand (py "game")) 41%N (example_edited ada)
    example_context ∅
  = (Raised AttributeError,
     {[ 7 := {| number := Some 42; attempts := 0 |} ]}, []).
Proof.
  refine (at_example game_command_without_message_creates_session
            41%N (example_edited ada) example_context ∅ ada _ _ _);
    reflexivity.
Defined.


Lemma other_users_entries_untouched_witness :
  let db : gmap Z session :=
    {[ 8 := {| number := Some 50; attempts := 2 |} ]} in
  (example_dispatch (OnCommand (py "game")) 41%N (example_message ada "/game")
     example_context db).1.2 !! 8
  = db !! 8.
Proof.
  intros db.
  apply (at_example other_users_entries_untouched). discriminate.
Defined.

Lemma only_game_and_text_change_store_witness :
  let db : gmap Z session :=
    {[ 7 := {| number := Some 42; attempts := 1 |} ]} in
  (example_dispatch (OnCommand (py "broadcast")) 0%N
     (example_message ada "/broadcast 50") {| args := [py "50"] |} db).1.2
  = db.
Proof.
  intros db.
  apply (at_example only_game_and_text_change_store); discriminate.
Defined.

Lemma sessions_come_from_game_command_witness :
  OnCommand (py "game") = OnCommand (py "game")
  /\ sender (example_message ada "/game") = Some 7
  /\ {| number := Some 42; attempts := 0 |} = fresh_session 41.
Proof.
  refine (at_example sessions_come_from_game_command
            (OnCommand (py "game")) 41%N (example_message ada "/game")
            example_context ∅ 7 {| number := Some 42; attempts := 0 |} _ _);
    reflexivity.
Defined.

Lemma session_is_stable_witness :
  let db : gmap Z session :=
    {[ 7 := {| number := Some 42; attempts := 1 |} ]} in
  match
    (example_dispatch OnText 0%N (example_message ada "50") example_context
       db).1.2 !! 7
  with
  | Some s' =>
      number s' = Some 42 /\ (attempts s' = 1 \/ attempts s' = 1 + 1)
  | None =>
      sender (example_message ada "50") = Some 7
      /\ guess_of example_isspace example_todecimal
           (example_message ada "50") = Some 42
      /\ (OnText = OnText \/ OnText = OnCommand (py "game"))
  end.
Proof.
  intros db.
  refine (at_example session_is_stable OnText 0%N (example_message ada "50")
            example_context db 7 42 1 _ _);
    [reflexivity|discriminate].
Defined.

Lemma out_of_range_guess_is_counted_witness :
  example_dispatch OnText 0%N (example_message ada "-3") example_context
    {[ 7 := {| number := Some 42; attempts := 1 |} ]}
  = (Returned tt, {[ 7 := {| number := Some 42; attempts := 2 |} ]},
     [ReplyText MSG_TOO_LOW]).
Proof.
  refine (at_example out_of_range_guess_is_counted
            0%N (example_message ada "-3") example_context
            {[ 7 := {| number := Some 42; attempts := 1 |} ]}
            ada {| text := py "-3" |}
            {| number := Some 42; attempts := 1 |} (-3) _ _ _ _ _ _);
    try reflexivity.
  - apply store_ok_insert; [apply store_ok_empty|].
    split; simpl; [|lia]. eexists. split; [reflexivity|lia].
  - left. lia.
Defined.


Lemma start_buttons_are_handled_witness :
  exists answer,
    button_handler (example_press ada "games") example_context ∅
    = (Returned tt, ∅, [QueryAnswer; EditMessageText answer]).
Proof.
  refine (proj1 (start_buttons_are_handled
                   (example_message ada "/start") example_context ∅
                   _ _ (example_press ada "games") example_context ∅
                   {| data := py "games" |} _ _) _ _).
  - apply list_elem_of_singleton. reflexivity.
  - reflexivity.
  - unfold keyboard_tags. simpl.
    do 4 (apply elem_of_cons; right). apply elem_of_cons. by left.
  - discriminate.
Defined.

Lemma help_button_needs_message_witness :
  button_handler (example_press ada "help") example_context ∅
  = (Raised AttributeError, ∅, [QueryAnswer]).
Proof.
  refine (help_button_needs_message (example_press ada "help")
            example_context ∅ {| data := py "help" |} _ _);
    reflexivity.
Defined.

Lemma command_like_text_is_never_forwarded_witness :
  example_dispatch OnText 0%N (example_message ada "/ hello") example_context
    ∅
  = (Returned tt, ∅, []).
Proof.
  refine (at_example command_like_text_is_never_forwarded
            0%N (example_message ada "/ hello") example_context ∅ ada
            {| text := py "/ hello" |} _ _ _);
    reflexivity.
Defined.

Lemma decimal_text_of_target_wins_witness :
  example_dispatch OnText 0%N (example_message ada "42") example_context
    {[ 7 := {| number := Some 42; attempts := 4 |} ]}
  = (Returned tt, ∅, [ReplyText (MSG_CORRECT 5)]).
Proof.
  refine (at_example decimal_text_of_target_wins
            0%N (example_message ada "42") example_context
            {[ 7 := {| number := Some 42; attempts := 4 |} ]} ada
            {| text := py "42" |} 42 4 _ _ _ _ _);
    (reflexivity || discriminate).
Defined.
